(** * Content scraper: extraction, link probing, issue analysis and the
      heuristic content analyzer

    A shallow embedding of the pipeline code of the repository:

    - [lib/firecrawl/client.ts]  (module [Firecrawl]): the client that the
      scrape route imports: [extractHeadings], [extractLinks],
      [checkBrokenLinks], [analyzeWebsiteIssues];
    - [lib/puppeteer/client.ts]  (module [Puppeteer]): the browser-automation
      client with the same exported names;
    - [lib/ai/content-analyzer.ts] (module [ContentAnalyzer]): the heuristic
      strategy: [calculateReadabilityScore], [calculateSentiment],
      [generateSuggestions].

    Strings are sequences of code units below 256 (ASCII and Latin-1); the
    JavaScript runtime functions the code calls ([trim], [split],
    [toLowerCase], [startsWith], regular expressions, [Promise.all]) are
    embedded in module [JS].  JavaScript numbers are rendered with exact
    rational arithmetic, plus the infinity and the NaN that a division of
    two array lengths can give. *)

From Stdlib Require Import List String Ascii ZArith QArith Lia Bool Arith.
From Stdlib Require Import DecimalString.
From Equations Require Import Equations.
Import ListNotations.

Local Open Scope string_scope.
Local Open Scope list_scope.
Local Open Scope nat_scope.

(* ===================================================================== *)
(** ** The JavaScript runtime the code relies on *)
(* ===================================================================== *)

Module JS.

(** *** Characters *)

Definition dquote : ascii := "034"%char.
Definition squote : ascii := "039"%char.

(** [\s], and what [trim] removes: TAB, LF, VT, FF, CR, SPACE and NBSP. *)
Definition isSpace (c : ascii) : bool :=
  let n := nat_of_ascii c in
  ((9 <=? n) && (n <=? 13)) || (n =? 32) || (n =? 160).

(** The characters [.] does not match (line terminators). *)
Definition isLineTerminator (c : ascii) : bool :=
  let n := nat_of_ascii c in (n =? 10) || (n =? 13).

Definition isUpper (c : ascii) : bool :=
  let n := nat_of_ascii c in
  ((65 <=? n) && (n <=? 90)) ||
  ((192 <=? n) && (n <=? 222) && negb (n =? 215)).

Definition toLowerChar (c : ascii) : ascii :=
  if isUpper c then ascii_of_nat (nat_of_ascii c + 32) else c.

(** Comparison under the [i] flag. *)
Definition eqbCI (a b : ascii) : bool :=
  Ascii.eqb (toLowerChar a) (toLowerChar b).

(** *** String methods *)

Fixpoint toLowerCase (s : string) : string :=
  match s with
  | EmptyString => EmptyString
  | String c s' => String (toLowerChar c) (toLowerCase s')
  end.

Fixpoint trimStart (s : string) : string :=
  match s with
  | EmptyString => EmptyString
  | String c s' => if isSpace c then trimStart s' else s
  end.

Fixpoint trimEnd (s : string) : string :=
  match s with
  | EmptyString => EmptyString
  | String c s' =>
      match trimEnd s' with
      | EmptyString => if isSpace c then EmptyString else String c EmptyString
      | t => String c t
      end
  end.

Definition trim (s : string) : string := trimEnd (trimStart s).

Definition startsWith (s p : string) : bool := String.prefix p s.

(** [s.substring(n)] *)
Fixpoint substringFrom (n : nat) (s : string) : string :=
  match n, s with
  | O, _ => s
  | S _, EmptyString => EmptyString
  | S m, String _ s' => substringFrom m s'
  end.

(** Truthiness of a string: [Boolean(s)], [if (s)], [!s]. *)
Definition truthy (s : string) : bool :=
  match s with EmptyString => false | _ => true end.

(** Truthiness of [string | null]. *)
Definition truthyOpt (o : option string) : bool :=
  match o with None => false | Some s => truthy s end.

(** Template-literal rendering of a non-negative integer. *)
Definition showNat (n : nat) : string :=
  NilZero.string_of_uint (Nat.to_uint n).

Fixpoint join (sep : string) (l : list string) : string :=
  match l with
  | [] => EmptyString
  | [x] => x
  | x :: rest => (x ++ sep ++ join sep rest)%string
  end.

(** [s.split(/[class]+/)]: the pieces between maximal runs of separator
    characters.  A leading or trailing run leaves an empty piece, and the
    empty string splits into one empty piece. *)
Fixpoint splitAux (sep : ascii -> bool) (inSep : bool) (cur : string)
         (s : string) : list string :=
  match s with
  | EmptyString => [cur]
  | String c s' =>
      if sep c then
        if inSep then splitAux sep true EmptyString s'
        else cur :: splitAux sep true EmptyString s'
      else splitAux sep false (cur ++ String c EmptyString)%string s'
  end.

Definition splitPlus (sep : ascii -> bool) (s : string) : list string :=
  splitAux sep false EmptyString s.

(** [arr.filter(Boolean)] on an array of strings. *)
Definition filterBoolean (l : list string) : list string :=
  filter truthy l.

(** [arr.includes(w)] *)
Definition includes (l : list string) (w : string) : bool :=
  existsb (String.eqb w) l.

(** *** Regular expressions

    The fragment the two patterns of the extractor use: literals under
    the [i] flag, character classes, greedy and lazy stars over a class,
    concatenation, capturing groups and back-references.  [run] is a
    backtracking matcher in continuation-passing style: alternatives are
    tried in the priority order of the language (greedy: longest first;
    lazy: shortest first). *)

Inductive regex : Type :=
| Lit (c : ascii)
| Class (p : ascii -> bool)
| StarGreedy (p : ascii -> bool)
| StarLazy (p : ascii -> bool)
| Cat (r1 r2 : regex)
| Group (n : nat) (r : regex)
| Backref (n : nat).

Definition captures := nat -> option string.

Definition noCaptures : captures := fun _ => None.

Definition setCapture (n : nat) (v : string) (cs : captures) : captures :=
  fun m => if m =? n then Some v else cs m.

(** The part of [s] in front of its suffix [rest]. *)
Definition consumed (s rest : string) : string :=
  substring 0 (String.length s - String.length rest) s.

Fixpoint prefixCI (p s : string) : option string :=
  match p, s with
  | EmptyString, _ => Some s
  | String a p', String b s' => if eqbCI a b then prefixCI p' s' else None
  | String _ _, EmptyString => None
  end.

Section Matcher.
Context {R : Type}.

Fixpoint starGreedy (p : ascii -> bool) (k : string -> option R)
         (s : string) : option R :=
  match s with
  | String c s' =>
      if p c then
        match starGreedy p k s' with
        | Some r => Some r
        | None => k s
        end
      else k s
  | EmptyString => k s
  end.

Fixpoint starLazy (p : ascii -> bool) (k : string -> option R)
         (s : string) : option R :=
  match k s with
  | Some r => Some r
  | None =>
      match s with
      | String c s' => if p c then starLazy p k s' else None
      | EmptyString => None
      end
  end.

Fixpoint run (r : regex) (k : string -> captures -> option R)
         (s : string) (cs : captures) : option R :=
  match r with
  | Lit a =>
      match s with
      | String c s' => if eqbCI a c then k s' cs else None
      | EmptyString => None
      end
  | Class p =>
      match s with
      | String c s' => if p c then k s' cs else None
      | EmptyString => None
      end
  | StarGreedy p => starGreedy p (fun s' => k s' cs) s
  | StarLazy p => starLazy p (fun s' => k s' cs) s
  | Cat r1 r2 => run r1 (fun s' cs' => run r2 k s' cs') s cs
  | Group n r1 =>
      run r1 (fun s' cs' => k s' (setCapture n (consumed s s') cs')) s cs
  | Backref n =>
      match cs n with
      | None => k s cs
      | Some w =>
          match prefixCI w s with
          | Some s' => k s' cs
          | None => None
          end
      end
  end.
End Matcher.

(** A match anchored at the start of [s]: the captures and the rest. *)
Definition matchAt (r : regex) (s : string) : option (captures * string) :=
  run r (fun rest cs => Some (cs, rest)) s noCaptures.

(** The loop [while ((m = re.exec(s)) !== null)] of a [g]-flagged
    pattern: the leftmost match from [lastIndex] on, then on from the end
    of that match.  [skip] counts the characters of the current match
    still to be passed over.  Both patterns here begin with the literal
    [<], so a match is never empty. *)
Fixpoint execAll (r : regex) (skip : nat) (s : string) : list captures :=
  match s with
  | EmptyString => []
  | String _ s' =>
      match skip with
      | S n => execAll r n s'
      | O =>
          match matchAt r s with
          | Some (cs, rest) =>
              cs :: execAll r (String.length s - String.length rest - 1) s'
          | None => execAll r 0 s'
          end
      end
  end.

(** [s.replace(re, '')] for a [g]-flagged pattern with non-empty matches. *)
Fixpoint removeAll (r : regex) (skip : nat) (s : string) : string :=
  match s with
  | EmptyString => EmptyString
  | String c s' =>
      match skip with
      | S n => removeAll r n s'
      | O =>
          match matchAt r s with
          | Some (_, rest) =>
              removeAll r (String.length s - String.length rest - 1) s'
          | None => String c (removeAll r 0 s')
          end
      end
  end.

Fixpoint lits (s : string) (tail : regex) : regex :=
  match s with
  | EmptyString => tail
  | String c s' => Cat (Lit c) (lits s' tail)
  end.

Definition capture (n : nat) (cs : captures) : string :=
  match cs n with Some v => v | None => EmptyString end.

(** [s.replace(c, '')] with a one-character string pattern: the first
    occurrence only. *)
Fixpoint removeFirst (a : ascii) (s : string) : string :=
  match s with
  | EmptyString => EmptyString
  | String c s' => if Ascii.eqb c a then s' else String c (removeFirst a s')
  end.

(** [parseInt(s, 10)]: leading white space, an optional sign, then the
    longest run of decimal digits; [None] is NaN. *)
Definition digitValue (c : ascii) : option Z :=
  let n := nat_of_ascii c in
  if (48 <=? n) && (n <=? 57) then Some (Z.of_nat (n - 48)) else None.

Fixpoint parseDigits (acc : option Z) (s : string) : option Z :=
  match s with
  | EmptyString => acc
  | String c s' =>
      match digitValue c with
      | Some d =>
          parseDigits
            (Some (match acc with Some a => 10 * a + d | None => d end)%Z) s'
      | None => acc
      end
  end.

Definition parseInt10 (s : string) : option Z :=
  match trimStart s with
  | String "-"%char s' => option_map Z.opp (parseDigits None s')
  | String "+"%char s' => parseDigits None s'
  | s' => parseDigits None s'
  end.

(** Synchronous code that may throw. *)
Inductive completion (A : Type) : Type :=
| Normal (a : A)
| Throw (message : string).
Arguments Normal {A} a.
Arguments Throw {A} message.

(** *** Promises, as far as [checkBrokenLinks] uses them *)

Inductive Promise (A : Type) : Type :=
| Fulfilled (a : A)
| Rejected (reason : string).
Arguments Fulfilled {A} a.
Arguments Rejected {A} reason.

(** [Promise.all]: fulfilled with all the values, in order, or rejected
    with the first rejection. *)
Fixpoint promiseAll {A : Type} (ps : list (Promise A)) : Promise (list A) :=
  match ps with
  | [] => Fulfilled []
  | Fulfilled a :: rest =>
      match promiseAll rest with
      | Fulfilled l => Fulfilled (a :: l)
      | Rejected e => Rejected e
      end
  | Rejected e :: _ => Rejected e
  end.

(** [arr.slice(i, j)] for [0 <= i <= j]. *)
Definition slice {A : Type} (l : list A) (i j : nat) : list A :=
  firstn (j - i) (skipn i l).

(** *** Numbers

    Finite values are exact rationals; [PosInf] and [NaN] are the special
    values a division of two array lengths can produce. *)

Inductive number : Type :=
| Fin (q : Q)
| PosInf
| NaN.

(** [a / b] for two array lengths. *)
Definition divLengths (a b : nat) : number :=
  match b, a with
  | O, O => NaN
  | O, S _ => PosInf
  | S _, _ => Fin (inject_Z (Z.of_nat a) / inject_Z (Z.of_nat b))%Q
  end.

(** [x * c] and [x / c] for a positive literal [c]. *)
Definition numMul (x : number) (c : Q) : number :=
  match x with
  | Fin q => Fin (q * c)%Q
  | PosInf => PosInf
  | NaN => NaN
  end.

Definition numDiv (x : number) (c : Q) : number :=
  match x with
  | Fin q => Fin (q / c)%Q
  | PosInf => PosInf
  | NaN => NaN
  end.

Definition numAdd (x y : number) : number :=
  match x, y with
  | NaN, _ | _, NaN => NaN
  | PosInf, _ | _, PosInf => PosInf
  | Fin a, Fin b => Fin (a + b)%Q
  end.

Definition ltQ (a b : Q) : bool := negb (Qle_bool b a).

(** [Math.min(c, x)] and [Math.max(c, x)] for a literal [c]. *)
Definition mathMin (c : Q) (x : number) : number :=
  match x with
  | NaN => NaN
  | PosInf => Fin c
  | Fin q => if ltQ q c then Fin q else Fin c
  end.

Definition mathMax (c : Q) (x : number) : number :=
  match x with
  | NaN => NaN
  | PosInf => PosInf
  | Fin q => if ltQ c q then Fin q else Fin c
  end.

(** [x < c] and [x > c] against a literal; false on [NaN]. *)
Definition numLt (x : number) (c : Q) : bool :=
  match x with
  | Fin q => ltQ q c
  | PosInf => false
  | NaN => false
  end.

Definition numGt (x : number) (c : Q) : bool :=
  match x with
  | Fin q => ltQ c q
  | PosInf => true
  | NaN => false
  end.

(** [s.includes(sub)] on strings. *)
Fixpoint includesStr (s sub : string) : bool :=
  String.prefix sub s
  || match s with
     | EmptyString => false
     | String _ s' => includesStr s' sub
     end.

(** [\w]: an ASCII letter, a digit or the underscore. *)
Definition isWordChar (c : ascii) : bool :=
  let n := nat_of_ascii c in
  ((48 <=? n) && (n <=? 57)) || ((65 <=? n) && (n <=? 90))
  || ((97 <=? n) && (n <=? 122)) || (n =? 95).

(** [s.replace(re, '')] for a [g]-flagged pattern that is one negated
    character class: the characters of the class are kept. *)
Fixpoint keepChars (keep : ascii -> bool) (s : string) : string :=
  match s with
  | EmptyString => EmptyString
  | String c s' =>
      if keep c then String c (keepChars keep s') else keepChars keep s'
  end.

End JS.

(* ===================================================================== *)
(** ** The data model shared by the two clients ([ScrapedData]) *)
(* ===================================================================== *)

Module Heading.
(** [{ tag: string; text: string; level: number }]; the level is an
    integer, or [None] for the NaN that [parseInt] can return. *)
Record t : Type := mk { tag : string; text : string; level : option Z }.
End Heading.

Module Anchor.
(** [{ href: string; text: string }], a link as the extractor returns it. *)
Record t : Type := mk { href : string; text : string }.
End Anchor.

Module Link.
(** A link as the analyzers see it, after the scrape route has added
    [isBroken]; an absent [isBroken] is falsy and is rendered [false]. *)
Record t : Type := mk { href : string; text : string; isBroken : bool }.
End Link.

Module Issue.
Record t : Type := mk {
  type : string;
  description : string;
  severity : string;
  element : option string
}.
End Issue.

Record ScrapedData : Type := mkScrapedData {
  url : string;
  title : option string;
  headings : list Heading.t;
  links : list Link.t;
  screenshot : option string
}.

(** [h.level === n] *)
Definition levelIs (n : Z) (h : Heading.t) : bool :=
  match Heading.level h with
  | Some v => (v =? n)%Z
  | None => false
  end.

(** [issues.push(i)] under a condition. *)
Definition pushIf (c : bool) (i : Issue.t) (issues : list Issue.t)
  : list Issue.t :=
  if c then issues ++ [i] else issues.

(* ===================================================================== *)
(** ** [lib/firecrawl/client.ts] *)
(* ===================================================================== *)

Module Firecrawl.
Import JS.

Definition notGt (c : ascii) : bool := negb (Ascii.eqb c ">").
Definition isQuote (c : ascii) : bool :=
  Ascii.eqb c dquote || Ascii.eqb c squote.
Definition notQuote (c : ascii) : bool := negb (isQuote c).
Definition dot (c : ascii) : bool := negb (isLineTerminator c).
Definition oneToSix (c : ascii) : bool :=
  let n := nat_of_ascii c in (49 <=? n) && (n <=? 54).

(** The pattern of [extractHeadings], flags [g] and [i]: an opening
    bracket, group 1 = [h] and a digit from 1 to 6, any characters but a
    closing bracket (greedy), a closing bracket, group 2 = any characters
    of one line (lazy), then the end tag that repeats group 1. *)
Definition headingRegex : regex :=
  lits "<"
    (Cat (Group 1 (Cat (Lit "h") (Class oneToSix)))
    (Cat (StarGreedy notGt)
    (lits ">"
    (Cat (Group 2 (StarLazy dot))
    (lits "</"
    (Cat (Backref 1) (Lit ">"))))))).

(** The pattern of [extractLinks], flags [g] and [i]: an opening bracket
    and [a], any characters but a closing bracket (greedy), [href=], a
    single or double quote, group 1 = any characters but quotes (greedy),
    a quote, any characters but a closing bracket (greedy), a closing
    bracket, group 2 = any characters of one line (lazy), the end tag
    of [a]. *)
Definition linkRegex : regex :=
  lits "<a"
    (Cat (StarGreedy notGt)
    (lits "href="
    (Cat (Class isQuote)
    (Cat (Group 1 (StarGreedy notQuote))
    (Cat (Class isQuote)
    (Cat (StarGreedy notGt)
    (lits ">"
    (Cat (Group 2 (StarLazy dot))
    (lits "</a" (Lit ">")))))))))).

(** The tag pattern of [replace]: an opening bracket, any characters but
    a closing bracket, a closing bracket; flag [g]. *)
Definition tagRegex : regex :=
  lits "<" (Cat (StarGreedy notGt) (Lit ">")).

(** The text of a match: tags removed, then trimmed. *)
Definition visibleText (inner : string) : string :=
  trim (removeAll tagRegex 0 inner).

(** One turn of the [while] loop of [extractHeadings]. *)
Definition headingStep (headings : list Heading.t) (m : captures)
  : list Heading.t :=
  let tag := toLowerCase (capture 1 m) in
  let text := visibleText (capture 2 m) in
  let level := parseInt10 (removeFirst "h" tag) in
  if truthy text then headings ++ [Heading.mk tag text level]
  else headings.

Definition extractHeadingsFrom (ms : list captures) : list Heading.t :=
  fold_left headingStep ms [].

Definition extractHeadings (html : string) : list Heading.t :=
  extractHeadingsFrom (execAll headingRegex 0 html).

(** *** Links *)

Module URL.
Record t : Type := mk { protocol : string; host : string; pathname : string }.
End URL.

Section Links.
(** [new URL(s)]: the parsed URL, or [None] when the constructor
    throws a [TypeError]. *)
Variable newURL : string -> option URL.t.

(** "Convert relative URLs to absolute URLs" *)
Definition resolveHref (baseUrl href : string) : completion string :=
  if startsWith href "/" then
    match newURL baseUrl with
    | Some b => Normal (URL.protocol b ++ "//" ++ URL.host b ++ href)%string
    | None => Throw "Invalid URL"
    end
  else if startsWith href "./" then
    match newURL baseUrl with
    | Some b =>
        Normal (URL.protocol b ++ "//" ++ URL.host b ++ URL.pathname b
                ++ substringFrom 2 href)%string
    | None => Throw "Invalid URL"
    end
  else Normal href.

Fixpoint extractLinksFrom (baseUrl : string) (ms : list captures)
         (links : list Anchor.t) : completion (list Anchor.t) :=
  match ms with
  | [] => Normal links
  | m :: rest =>
      let text := visibleText (capture 2 m) in
      match resolveHref baseUrl (capture 1 m) with
      | Throw e => Throw e
      | Normal href =>
          if startsWith href "http" && truthy text
          then extractLinksFrom baseUrl rest (links ++ [Anchor.mk href text])
          else extractLinksFrom baseUrl rest links
      end
  end.

Definition extractLinks (html baseUrl : string)
  : completion (list Anchor.t) :=
  extractLinksFrom baseUrl (execAll linkRegex 0 html) [].
End Links.

(** *** Link probing *)

Module LinkStatus.
Record t : Type := mk { url : string; isBroken : bool }.
End LinkStatus.

(** [response.ok]: the status is in the range 200-299. *)
Definition ok (status : Z) : bool := ((200 <=? status) && (status <=? 299))%Z.

Definition batchSize : nat := 10.

Section Prober.
(** [fetch(url, { method: 'HEAD', ... })]: fulfilled with the status of
    the response, or rejected (network failure, abort). *)
Variable fetch : string -> Promise Z.

(** The [async (url) => { try ... catch ... }] of one link. *)
Definition probe (url : string) : Promise LinkStatus.t :=
  match fetch url with
  | Fulfilled status => Fulfilled (LinkStatus.mk url (negb (ok status)))
  | Rejected _ => Fulfilled (LinkStatus.mk url true)
  end.

(** [for (let i = ...; i < links.length; i += batchSize)] *)
Equations? probeBatches (links : list string) (i : nat)
           (results : list LinkStatus.t)
  : Promise (list LinkStatus.t) by wf (List.length links - i) lt :=
  probeBatches links i results with lt_dec i (List.length links) => {
    | right _ => Fulfilled results
    | left _ with promiseAll (map probe (slice links i (i + batchSize))) => {
        | Rejected e => Rejected e
        | Fulfilled batchResults =>
            probeBatches links (i + batchSize) (results ++ batchResults)
      }
  }.
Proof. unfold batchSize. lia. Qed.

Definition checkBrokenLinks (links : list string)
  : Promise (list LinkStatus.t) :=
  probeBatches links 0 [].
End Prober.

(** *** Link probing, request by request

    [checkBrokenLinks] above gives a URL one outcome.  Here every entry
    of [links] has a request of its own: [fetchAt n url] is what the
    request for the entry at position [n] does, so two entries with one
    URL need not end alike. *)
Section RequestProber.
Variable fetchAt : nat -> string -> Promise Z.

Definition probeAt (n : nat) (url : string) : Promise LinkStatus.t :=
  match fetchAt n url with
  | Fulfilled status => Fulfilled (LinkStatus.mk url (negb (ok status)))
  | Rejected _ => Fulfilled (LinkStatus.mk url true)
  end.

(** [batch.map(async (url) => ...)] for the batch whose first entry is
    at position [i]. *)
Fixpoint probeFrom (i : nat) (batch : list string)
  : list (Promise LinkStatus.t) :=
  match batch with
  | [] => []
  | url :: rest => probeAt i url :: probeFrom (S i) rest
  end.

Equations? probeBatchesAt (links : list string) (i : nat)
           (results : list LinkStatus.t)
  : Promise (list LinkStatus.t) by wf (List.length links - i) lt :=
  probeBatchesAt links i results with lt_dec i (List.length links) => {
    | right _ => Fulfilled results
    | left _ with promiseAll (probeFrom i (slice links i (i + batchSize))) => {
        | Rejected e => Rejected e
        | Fulfilled batchResults =>
            probeBatchesAt links (i + batchSize) (results ++ batchResults)
      }
  }.
Proof. unfold batchSize. lia. Qed.

Definition checkBrokenLinksAt (links : list string)
  : Promise (list LinkStatus.t) :=
  probeBatchesAt links 0 [].
End RequestProber.

(** *** Issue analysis *)

Definition titleText (d : ScrapedData) : string :=
  match title d with Some t => t | None => EmptyString end.

(** [a > b + 1] on heading levels; false when either is NaN. *)
Definition deeperByMoreThanOne (a b : option Z) : bool :=
  match a, b with
  | Some x, Some y => (y + 1 <? x)%Z
  | _, _ => false
  end.

(** The [for] loop over [headingLevels], which stops at the first skip. *)
Fixpoint skipsAfter (prev : option Z) (rest : list (option Z)) : bool :=
  match rest with
  | [] => false
  | cur :: rest' =>
      if deeperByMoreThanOne cur prev then true else skipsAfter cur rest'
  end.

Definition skipsLevel (levels : list (option Z)) : bool :=
  match levels with
  | [] => false
  | first :: rest => skipsAfter first rest
  end.

Definition blank (s : string) : bool := String.eqb (trim s) EmptyString.

(** The anchored, case-insensitive test for one of the five phrases. *)
Definition nonDescriptive (s : string) : bool :=
  existsb (String.eqb (toLowerCase s))
          ["click here"; "here"; "read more"; "more"; "link"].

(** The body of the [try] block: on a [ScrapedData] of the declared type
    no statement of it throws, so the [catch] branch is never taken. *)
Definition analyzeWebsiteIssues (scrapedData : ScrapedData) : list Issue.t :=
  let t := titleText scrapedData in
  let hasTitle := truthyOpt (title scrapedData) in
  let issues := [] in
  let issues :=
    pushIf (negb hasTitle || blank t)
      (Issue.mk "Missing Title"
         "The page is missing a title which is important for SEO and accessibility."
         "high" None) issues in
  let issues :=
    pushIf (hasTitle && (String.length t <? 10))
      (Issue.mk "Short Title"
         "The page title is too short. Consider making it more descriptive."
         "medium" (Some t)) issues in
  let issues :=
    pushIf (hasTitle && (60 <? String.length t))
      (Issue.mk "Long Title"
         "The page title is too long and may be truncated in search results."
         "medium" (Some t)) issues in
  let h1Count := List.length (filter (levelIs 1) (headings scrapedData)) in
  let issues :=
    pushIf (h1Count =? 0)
      (Issue.mk "Missing H1"
         "The page is missing an H1 heading which is important for SEO."
         "high" None) issues in
  let issues :=
    pushIf (1 <? h1Count)
      (Issue.mk "Multiple H1s"
         "The page has multiple H1 headings. Consider using only one H1 per page."
         "medium" None) issues in
  let headingLevels := map Heading.level (headings scrapedData) in
  let issues :=
    pushIf (skipsLevel headingLevels)
      (Issue.mk "Heading Hierarchy"
         "Heading levels should not skip levels (e.g., H1 directly to H3)."
         "medium" None) issues in
  let emptyHeadings :=
    filter (fun h => blank (Heading.text h)) (headings scrapedData) in
  let issues :=
    pushIf (0 <? List.length emptyHeadings)
      (Issue.mk "Empty Headings"
         ("Found " ++ showNat (List.length emptyHeadings)
          ++ " empty heading(s). All headings should have descriptive text.")%string
         "medium" None) issues in
  let emptyLinks :=
    filter (fun l => negb (truthy (Link.text l)) || blank (Link.text l))
           (links scrapedData) in
  let issues :=
    pushIf (0 <? List.length emptyLinks)
      (Issue.mk "Empty Links"
         ("Found " ++ showNat (List.length emptyLinks)
          ++ " link(s) without descriptive text.")%string
         "medium" None) issues in
  let nonDescriptiveLinks :=
    filter (fun l => nonDescriptive (trim (Link.text l))) (links scrapedData) in
  let issues :=
    pushIf (0 <? List.length nonDescriptiveLinks)
      (Issue.mk "Non-descriptive Links"
         ("Found " ++ showNat (List.length nonDescriptiveLinks)
          ++ " link(s) with non-descriptive text like "
          ++ String dquote "click here" ++ String dquote ".")%string
         "low" None) issues in
  issues.

End Firecrawl.

(* ===================================================================== *)
(** ** [lib/puppeteer/client.ts] *)
(* ===================================================================== *)

Module Puppeteer.
Import JS.

(** What the callbacks of [page.evaluate] read from the DOM. *)
Module HeadingElement.
Record t : Type := mk { tagName : string; textContent : option string }.
End HeadingElement.

Module AnchorElement.
(** [href] is the resolved URL the DOM reports (empty without an
    [href] attribute). *)
Record t : Type := mk { href : string; textContent : option string }.
End AnchorElement.

(** [el.textContent?.trim() || fallback] *)
Definition trimmedOr (textContent : option string) (fallback : string)
  : string :=
  match textContent with
  | Some s => if truthy (trim s) then trim s else fallback
  | None => fallback
  end.

(** The heading callback of [scrapeWebsite], over the elements that
    [querySelectorAll('h1, h2, h3, h4, h5, h6')] returns. *)
Definition scrapeHeadings (headingElements : list HeadingElement.t)
  : list Heading.t :=
  map (fun el =>
         let tag := toLowerCase (HeadingElement.tagName el) in
         Heading.mk tag
                    (trimmedOr (HeadingElement.textContent el) EmptyString)
                    (parseInt10 (removeFirst "h" tag)))
      headingElements.

(** The link callback of [scrapeWebsite], over [querySelectorAll('a')]. *)
Definition scrapeLinks (linkElements : list AnchorElement.t)
  : list Anchor.t :=
  map (fun el =>
         Anchor.mk (AnchorElement.href el)
                   (trimmedOr (AnchorElement.textContent el)
                              (AnchorElement.href el)))
      (filter (fun el => truthy (AnchorElement.href el)
                         && startsWith (AnchorElement.href el) "http")
              linkElements).

(** *** Link probing *)

Module LinkStatus.
Record t : Type := mk { url : string; isBroken : bool }.
End LinkStatus.

Definition concurrencyLimit : nat := 5.

(** "Split links into chunks for concurrent processing" *)
Equations? chunksFrom (links : list string) (i : nat)
           (chunks : list (list string))
  : list (list string) by wf (List.length links - i) lt :=
  chunksFrom links i chunks with lt_dec i (List.length links) => {
    | right _ => chunks
    | left _ =>
        chunksFrom links (i + concurrencyLimit)
                   (chunks ++ [slice links i (i + concurrencyLimit)])
  }.
Proof. unfold concurrencyLimit. lia. Qed.

Section Prober.
(** Whether [getBrowser], [newPage] and [setDefaultNavigationTimeout]
    succeed, and [page.goto(url, ...)]: fulfilled with the status of
    the response or with [None] for a null response, or rejected. *)
Variable pageOpens : bool.
Variable goto : string -> Promise (option Z).

Definition probe (url : string) : Promise LinkStatus.t :=
  match goto url with
  | Fulfilled None => Fulfilled (LinkStatus.mk url true)
  | Fulfilled (Some status) =>
      Fulfilled (LinkStatus.mk url (400 <=? status)%Z)
  | Rejected _ => Fulfilled (LinkStatus.mk url true)
  end.

(** "Process each chunk" *)
Fixpoint processChunks (chunks : list (list string))
         (results : list LinkStatus.t) : Promise (list LinkStatus.t) :=
  match chunks with
  | [] => Fulfilled results
  | chunk :: rest =>
      match promiseAll (map probe chunk) with
      | Fulfilled chunkResults =>
          processChunks rest (results ++ chunkResults)
      | Rejected e => Rejected e
      end
  end.

Definition allNotBroken (links : list string) : list LinkStatus.t :=
  map (fun url => LinkStatus.mk url false) links.

Definition checkBrokenLinks (links : list string)
  : Promise (list LinkStatus.t) :=
  if pageOpens then
    match processChunks (chunksFrom links 0 []) [] with
    | Fulfilled results => Fulfilled results
    | Rejected _ => Fulfilled (allNotBroken links)
    end
  else Fulfilled (allNotBroken links).
End Prober.

(** *** Issue analysis *)

Definition titleText (d : ScrapedData) : string :=
  match title d with Some t => t | None => EmptyString end.

Definition blank (s : string) : bool := String.eqb (trim s) EmptyString.

Definition anchorMarkup (href text : string) : string :=
  ("<a href=" ++ String dquote href ++ String dquote ">" ++ text ++ "</a>")%string.

(** The body of the [try] block; as in the other client, the [catch]
    branch is never taken on a [ScrapedData] of the declared type. *)
Definition analyzeWebsiteIssues (scrapedData : ScrapedData) : list Issue.t :=
  let t := titleText scrapedData in
  let hasTitle := truthyOpt (title scrapedData) in
  let issues := [] in
  let issues :=
    pushIf (negb hasTitle || blank t)
      (Issue.mk "Missing Title"
         "The page is missing a title which is important for SEO and accessibility."
         "high" None) issues in
  let issues :=
    pushIf (hasTitle && (String.length t <? 10))
      (Issue.mk "Short Title"
         "The page title is very short. Consider using a more descriptive title."
         "medium" (Some ("<title>" ++ t ++ "</title>")%string)) issues in
  let issues :=
    pushIf (List.length (headings scrapedData) =? 0)
      (Issue.mk "No Headings"
         "The page has no headings which makes it difficult to understand the content structure."
         "medium" None) issues in
  let issues :=
    pushIf (negb (existsb (levelIs 1) (headings scrapedData)))
      (Issue.mk "Missing H1"
         "The page is missing an H1 heading which is important for SEO and content hierarchy."
         "medium" None) issues in
  let h1Count := List.length (filter (levelIs 1) (headings scrapedData)) in
  let issues :=
    pushIf (1 <? h1Count)
      (Issue.mk "Multiple H1 Headings"
         ("The page has " ++ showNat h1Count
          ++ " H1 headings. It's best practice to have only one main H1 heading.")%string
         "low" None) issues in
  let brokenLinks := filter Link.isBroken (links scrapedData) in
  let issues :=
    pushIf (0 <? List.length brokenLinks)
      (Issue.mk "Broken Links"
         ("The page contains " ++ showNat (List.length brokenLinks)
          ++ " broken links that should be fixed.")%string
         "high"
         (match brokenLinks with
          | first :: _ =>
              Some (anchorMarkup (Link.href first) (Link.text first))
          | [] => None
          end)) issues in
  let emptyLinks :=
    filter (fun l => negb (truthy (Link.text l)) || blank (Link.text l))
           (links scrapedData) in
  let issues :=
    pushIf (0 <? List.length emptyLinks)
      (Issue.mk "Empty Link Text"
         ("The page contains " ++ showNat (List.length emptyLinks)
          ++ " links with no text which is bad for accessibility.")%string
         "medium"
         (match emptyLinks with
          | first :: _ => Some (anchorMarkup (Link.href first) EmptyString)
          | [] => None
          end)) issues in
  issues.

(** *** [checkBrokenLinks] with the closing of its page

    [checkBrokenLinks] above takes [page.close()] to succeed.  Here the
    closing is explicit.  How far the opening steps get: [getBrowser] or
    [newPage] is rejected and [page] stays [null]; the page is there but
    [setDefaultNavigationTimeout] throws; or the page is ready. *)
Inductive Opening : Type := NoPage | PageOnly | PageReady.

Section ProberClosing.
Variable opening : Opening.
Variable goto : string -> Promise (option Z).
(** What the first and the second call of [page.close()] do. *)
Variable close1 close2 : Promise unit.

(** The [catch] block, entered with or without a page. *)
Definition catchBlock (hasPage : bool) (close : Promise unit)
           (links : list string) : Promise (list LinkStatus.t) :=
  if hasPage then
    match close with
    | Fulfilled _ => Fulfilled (allNotBroken links)
    | Rejected e => Rejected e
    end
  else Fulfilled (allNotBroken links).

Definition checkBrokenLinksClosing (links : list string)
  : Promise (list LinkStatus.t) :=
  match opening with
  | NoPage => catchBlock false close1 links
  | PageOnly => catchBlock true close1 links
  | PageReady =>
      match processChunks goto (chunksFrom links 0 []) [] with
      | Fulfilled results =>
          match close1 with
          | Fulfilled _ => Fulfilled results
          | Rejected _ => catchBlock true close2 links
          end
      | Rejected _ => catchBlock true close1 links
      end
  end.
End ProberClosing.

(** *** The cached browser *)

(** A browser, named by a number; the module-level [browserInstance] is
    [None] for [null]. *)
Definition Browser := nat.

Section BrowserCache.
(** What [puppeteer.launch(...)] would be fulfilled or rejected with. *)
Variable launch : Promise Browser.

(** [getBrowser]: the promise it returns and the [browserInstance] it
    leaves. *)
Definition getBrowser (browserInstance : option Browser)
  : Promise Browser * option Browser :=
  match browserInstance with
  | Some b => (Fulfilled b, browserInstance)
  | None =>
      match launch with
      | Fulfilled b => (Fulfilled b, Some b)
      | Rejected e => (Rejected e, None)
      end
  end.
End BrowserCache.

(** [closeBrowser], given what [browserInstance.close()] does. *)
Definition closeBrowser (close : Promise unit)
           (browserInstance : option Browser)
  : Promise unit * option Browser :=
  match browserInstance with
  | Some _ =>
      match close with
      | Fulfilled _ => (Fulfilled tt, None)
      | Rejected e => (Rejected e, browserInstance)
      end
  | None => (Fulfilled tt, None)
  end.

End Puppeteer.

(* ===================================================================== *)
(** ** [lib/ai/content-analyzer.ts], the heuristic strategy *)
(* ===================================================================== *)

Module ContentAnalyzer.
Import JS.

Inductive ReadabilityLevel : Type := Easy | Medium | Hard.

(** The text [analyzeContent] hands to the heuristics: title, heading
    texts and link texts, joined by single spaces. *)
Definition allText (data : ScrapedData) : string :=
  let title := match title data with Some t => t | None => EmptyString end in
  let headingTexts := join " " (map Heading.text (headings data)) in
  let linkTexts := join " " (map Link.text (links data)) in
  (title ++ " " ++ headingTexts ++ " " ++ linkTexts)%string.

Definition isSentenceEnd (c : ascii) : bool :=
  Ascii.eqb c "." || Ascii.eqb c "!" || Ascii.eqb c "?".

Definition calculateReadabilityScore (text : string) : number :=
  let words := filterBoolean (splitPlus isSpace text) in
  let sentences := filterBoolean (splitPlus isSentenceEnd text) in
  if List.length sentences =? 0 then Fin 50
  else
    let avgWordsPerSentence :=
      divLengths (List.length words) (List.length sentences) in
    let longWords :=
      List.length (filter (fun word => 6 <? String.length word) words) in
    let longWordPercentage :=
      numMul (divLengths longWords (List.length words)) 100 in
    let score :=
      numAdd (numAdd (Fin 60) (numMul avgWordsPerSentence 2))
             (numDiv longWordPercentage 2) in
    mathMax 0 (mathMin 100 score).

Definition getReadabilityLevel (score : number) : ReadabilityLevel :=
  if numLt score 40 then Easy
  else if numLt score 70 then Medium
  else Hard.

Definition positiveWords : list string :=
  ["good"; "great"; "best"; "excellent"; "amazing"; "wonderful";
   "fantastic"; "love"; "like"; "enjoy"; "happy"; "pleased"; "satisfied";
   "perfect"; "outstanding"; "brilliant"; "awesome"; "incredible";
   "superb"].

Definition negativeWords : list string :=
  ["bad"; "terrible"; "awful"; "horrible"; "worst"; "hate"; "dislike";
   "angry"; "frustrated"; "disappointed"; "sad"; "poor"; "failed";
   "broken"; "wrong"; "error"; "problem"; "issue"; "difficult"].

(** The body of [words.forEach]: the two counters. *)
Definition countWord (counts : nat * nat) (word : string) : nat * nat :=
  let (positiveCount, negativeCount) := counts in
  let positiveCount :=
    if includes positiveWords word then S positiveCount else positiveCount in
  let negativeCount :=
    if includes negativeWords word then S negativeCount else negativeCount in
  (positiveCount, negativeCount).

Definition sentimentCounts (text : string) : nat * nat :=
  fold_left countWord (splitPlus isSpace (toLowerCase text)) (0, 0).

Definition calculateSentiment (text : string) : number :=
  let (positiveCount, negativeCount) := sentimentCounts text in
  let totalSentimentWords := positiveCount + negativeCount in
  if totalSentimentWords =? 0 then Fin 0
  else
    Fin (inject_Z (Z.of_nat positiveCount - Z.of_nat negativeCount)
         / inject_Z (Z.of_nat totalSentimentWords))%Q.

(** The thresholds 0.3, 0.1, -0.1 and -0.3. *)
Definition getSentimentAnalysis (score : number) : string :=
  if numGt score (3 # 10) then "Very Positive"
  else if numGt score (1 # 10) then "Positive"
  else if numGt score (- 1 # 10) then "Neutral"
  else if numGt score (- 3 # 10) then "Negative"
  else "Very Negative".

Definition pushTo (suggestions : list string) (s : string) : list string :=
  suggestions ++ [s].

Definition genericSuggestions : list string :=
  ["Content structure looks good - consider adding more interactive elements";
   "Optimize images for better loading performance";
   "Add internal links to improve navigation"].

Definition generateSuggestions (data : ScrapedData) : list string :=
  let suggestions := [] in
  let h1Count := List.length (filter (levelIs 1) (headings data)) in
  let suggestions :=
    if h1Count =? 0 then
      pushTo suggestions
             "Add an H1 heading to improve SEO and content structure"
    else if 1 <? h1Count then
      pushTo suggestions
             "Consider using only one H1 heading per page for better SEO"
    else suggestions in
  let suggestions :=
    if 0 <? List.length (links data) then
      pushTo suggestions
             "Review all links to ensure they are working properly"
    else suggestions in
  let totalTextLength :=
    fold_left (fun acc h => acc + String.length (Heading.text h))
              (headings data) 0 in
  let suggestions :=
    if totalTextLength <? 300 then
      pushTo suggestions
             "Consider adding more content to improve SEO and provide better value to users"
    else suggestions in
  let suggestions :=
    if negb (truthyOpt (screenshot data)) then
      pushTo suggestions
             "Add visual elements or images to make the content more engaging"
    else suggestions in
  if List.length suggestions =? 0 then
    pushTo (pushTo (pushTo suggestions
      "Content structure looks good - consider adding more interactive elements")
      "Optimize images for better loading performance")
      "Add internal links to improve navigation"
  else suggestions.

(** [h2s.slice(0, 3).join(', ')] *)
Definition firstThree (h2s : list string) : string :=
  join ", " (firstn 3 h2s).

Definition generateSummary (title : string) (headings : list Heading.t)
  : string :=
  let h1s := map Heading.text (filter (levelIs 1) headings) in
  let h2s := map Heading.text (filter (levelIs 2) headings) in
  if 0 <? List.length h1s then
    let subtopics :=
      if 0 <? List.length h2s
      then (" with subtopics including " ++ firstThree h2s)%string
      else EmptyString in
    ("This page is about " ++ title ++ ". The main topics covered are "
     ++ join ", " h1s ++ subtopics ++ ".")%string
  else
    let topics :=
      if 0 <? List.length h2s
      then (" and covers topics like " ++ firstThree h2s)%string
      else EmptyString in
    ("This page is about " ++ title ++ topics ++ ".")%string.

Definition stopWords : list string :=
  ["a"; "an"; "the"; "and"; "or"; "but"; "is"; "are"; "was"; "were"; "to";
   "of"; "in"; "on"; "at"; "by"; "for"; "with"; "about"; "from"; "this";
   "that"; "these"; "those"; "it"; "its"; "they"; "them"; "have"; "has";
   "had"; "will"; "would"; "could"; "should"; "can"; "may"; "might"].

(** The [words] of [calculateKeywordDensity]: the text in lower case,
    without the characters that are neither word characters nor white
    space, split at white space, without the words of at most two
    characters and the stop words.  The keys of [keywordDensity] are
    among them. *)
Definition keywordWords (text : string) : list string :=
  filter (fun word => (2 <? String.length word)
                      && negb (includes stopWords word))
         (splitPlus isSpace
            (keepChars (fun c => isWordChar c || isSpace c)
                       (toLowerCase text))).

End ContentAnalyzer.

(* ===================================================================== *)
(** ** [checkBrokenLinks] of the Firecrawl API client *)
(* ===================================================================== *)

Module FirecrawlApi.
Import JS.

Module LinkStatus.
Record t : Type := mk { url : string; isBroken : bool }.
End LinkStatus.

(** [links.map(url => ({ url, isBroken: url.includes('broken') ||
    Math.random() < 0.2 }))]: [draw n] tells whether the [n]-th call of
    [Math.random] gives a number below 0.2; a call is made only for a URL
    without [broken] in it. *)
Fixpoint mockResults (draw : nat -> bool) (n : nat) (links : list string)
  : list LinkStatus.t :=
  match links with
  | [] => []
  | url :: rest =>
      if includesStr url "broken"
      then LinkStatus.mk url true :: mockResults draw n rest
      else LinkStatus.mk url (draw n) :: mockResults draw (S n) rest
  end.

Section Client.
(** [process.env.FIRECRAWL_API_KEY || ''] and [process.env.NODE_ENV]. *)
Variable API_KEY : string.
Variable NODE_ENV : string.
Variable draw : nat -> bool.
(** [axios.post(API_URL + '/check-links', { links }, ...)]: the status
    and [data.results] of the response, or a rejection. *)
Variable post : list string -> Promise (Z * list LinkStatus.t).

Definition USE_MOCK_DATA : bool :=
  negb (truthy API_KEY) || String.eqb NODE_ENV "development".

(** The [catch] block. *)
Definition fallback (links : list string) : list LinkStatus.t :=
  if String.eqb NODE_ENV "development" then mockResults draw 0 links
  else map (fun url => LinkStatus.mk url false) links.

Definition checkBrokenLinks (links : list string) : list LinkStatus.t :=
  if USE_MOCK_DATA then mockResults draw 0 links
  else
    match post links with
    | Fulfilled (status, results) =>
        if (status =? 200)%Z then results else fallback links
    | Rejected _ => fallback links
    end.
End Client.

End FirecrawlApi.

(* ===================================================================== *)
(** ** [lib/utils.ts] *)
(* ===================================================================== *)

Module Utils.
Import JS.

Section Url.
(** [new URL(s)], as in module [Firecrawl]. *)
Variable newURL : string -> option Firecrawl.URL.t.

Definition isValidUrl (url : string) : bool :=
  match newURL url with
  | Some _ => true
  | None => false
  end.
End Url.

(** [str.slice(0, n)] for an integer [n]: a negative [n] counts from the
    end of the string. *)
Definition sliceTo (str : string) (n : Z) : string :=
  if (n <? 0)%Z
  then substring 0 (Z.to_nat (Z.of_nat (String.length str) + n)) str
  else substring 0 (Z.to_nat n) str.

Definition truncateString (str : string) (length : Z) : string :=
  if (Z.of_nat (String.length str) <=? length)%Z then str
  else (sliceTo str length ++ "...")%string.

End Utils.

(* ===================================================================== *)
(** ** [scrapeWebsite] of [lib/firecrawl/client.ts] *)
(* ===================================================================== *)

Module FirecrawlScrape.
Import JS.

(** The fields [scrapeWebsite] reads from a response, or from its [data]. *)
Module Payload.
Record t : Type := mk {
  metadata : option (option string);
  title : option string;
  html : option string;
  markdown : option string;
  screenshot : option string;
  actionScreenshot : option string
}.
End Payload.

(** What [scrapeUrl] is fulfilled with: a string, or an object with the
    optional fields [success], [error] and [data] beside the payload
    fields it may carry itself.  [metadata] is [Some t] for a metadata
    object whose [title] is [t]; [actionScreenshot] is
    [actions?.screenshots?.[0]]. *)
Inductive ScrapeResult : Type :=
| Text (body : string)
| Reply (success : option bool) (error : option string)
        (data : option Payload.t) (own : Payload.t).

(** [ScrapedData] as [scrapeWebsite] returns it. *)
Module Scraped.
Record t : Type := mk {
  url : string;
  title : option string;
  headings : list Heading.t;
  links : list Anchor.t;
  screenshot : option string;
  error : option string
}.
End Scraped.

(** [a || b] on [string | undefined] values. *)
Definition orElse (a b : option string) : option string :=
  if truthyOpt a then a else b.

Definition metadataTitle (p : Payload.t) : option string :=
  match Payload.metadata p with
  | Some t => t
  | None => None
  end.

Definition isSome {A : Type} (o : option A) : bool :=
  match o with Some _ => true | None => false end.

(** The message the [catch] block reports for the message it caught. *)
Definition reportedError (message : string) : string :=
  if includesStr message "Unexpected token" then
    "Firecrawl API returned invalid response - likely an authentication or rate limit issue"
  else if includesStr message "API key" then
    "Invalid or missing Firecrawl API key"
  else if includesStr message "timeout" then
    "Request timed out - website may be slow or unavailable"
  else if includesStr message "rate limit" then
    "Firecrawl API rate limit exceeded - please try again later"
  else if truthy message then message
  else "Failed to scrape website".

Definition failed (url message : string) : Scraped.t :=
  Scraped.mk url None [] [] None (Some (reportedError message)).

Section Scrape.
Variable newURL : string -> option Firecrawl.URL.t.
(** [process.env.FIRECRAWL_API_KEY] *)
Variable apiKey : option string.
(** The race of [scrapeUrl] against the 28 second timer, which rejects
    with this message. *)
Variable scrapeUrl : string -> Promise ScrapeResult.

Definition timeoutMessage : string :=
  "Request timeout - Vercel function limit reached".

(** The statements of the [try] block after the response has its [data]. *)
Definition fromPayload (url : string) (data : Payload.t) : Scraped.t :=
  let title := orElse (metadataTitle data) (Payload.title data) in
  let html :=
    match orElse (Payload.html data) (Some EmptyString) with
    | Some h => h
    | None => EmptyString
    end in
  let headings := Firecrawl.extractHeadings html in
  match Firecrawl.extractLinks newURL html url with
  | Throw message => failed url message
  | Normal links =>
      let screenshot :=
        orElse (Payload.screenshot data) (Payload.actionScreenshot data) in
      Scraped.mk url (if truthyOpt title then title else None)
                 headings links
                 (if truthyOpt screenshot then screenshot else None)
                 None
  end.

Definition scrapeWebsite (url : string) : Scraped.t :=
  if negb (Utils.isValidUrl newURL url) then failed url "Invalid URL format"
  else if negb (truthyOpt apiKey) then
    failed url "FIRECRAWL_API_KEY environment variable is not set"
  else
    match scrapeUrl url with
    | Rejected message => failed url message
    | Fulfilled (Text body) =>
        if includesStr body "<html" then
          failed url
            "Received HTML error page from Firecrawl API - check API key and rate limits"
        else failed url "Unexpected response format from Firecrawl"
    | Fulfilled (Reply success error data own) =>
        match success with
        | Some false =>
            failed url
              (match orElse error (Some "Failed to scrape website") with
               | Some m => m
               | None => "Failed to scrape website"
               end)
        | _ =>
            match data with
            | Some d => fromPayload url d
            | None =>
                if truthyOpt (Payload.markdown own)
                   || truthyOpt (Payload.html own)
                   || isSome (Payload.metadata own)
                then fromPayload url own
                else failed url "Unexpected response format from Firecrawl"
            end
        end
    end.
End Scrape.

End FirecrawlScrape.

(* ===================================================================== *)
(** ** [app/api/scrape/route.ts] *)
(* ===================================================================== *)

Module Route.
Import JS.

(** The object [brokenLinksMap]: its own properties, in the order of
    their creation. *)
Definition object := list (string * bool).

(** [acc[url] = isBroken] *)
Fixpoint setProperty (key : string) (value : bool) (obj : object) : object :=
  match obj with
  | [] => [(key, value)]
  | (k, v) :: rest =>
      if String.eqb k key then (k, value) :: rest
      else (k, v) :: setProperty key value rest
  end.

(** [obj[key]], [None] for [undefined]. *)
Fixpoint getProperty (key : string) (obj : object) : option bool :=
  match obj with
  | [] => None
  | (k, v) :: rest => if String.eqb k key then Some v else getProperty key rest
  end.

Definition brokenLinksMap (brokenLinksResult : list Firecrawl.LinkStatus.t)
  : object :=
  fold_left (fun acc r =>
               setProperty (Firecrawl.LinkStatus.url r)
                           (Firecrawl.LinkStatus.isBroken r) acc)
            brokenLinksResult [].

(** [brokenLinksMap[link.href] || false] *)
Definition enhanceLinks (links : list Anchor.t) (map_ : object)
  : list Link.t :=
  map (fun link =>
         Link.mk (Anchor.href link) (Anchor.text link)
                 (match getProperty (Anchor.href link) map_ with
                  | Some b => b
                  | None => false
                  end))
      links.

(** The body of a response: an error, or the scraping result (without
    the [id] and [createdAt] that saving adds). *)
Inductive body : Type :=
| ErrorBody (error : string)
| ResultBody (url : string) (title : option string)
             (headings : list Heading.t) (links : list Link.t)
             (screenshot : option string) (issues : list Issue.t).

Section Handler.
(** The request [checkBrokenLinks] makes for the link at a position. *)
Variable fetchAt : nat -> string -> Promise Z.

(** The handler from the scraped data on: steps 2, 3 and 5. *)
Definition respond (scrapedData : FirecrawlScrape.Scraped.t) : Z * body :=
  if truthyOpt (FirecrawlScrape.Scraped.error scrapedData) then
    (500%Z,
     ErrorBody (match FirecrawlScrape.Scraped.error scrapedData with
                | Some e => e
                | None => "Failed to scrape website"
                end))
  else
    let linkUrls := map Anchor.href (FirecrawlScrape.Scraped.links scrapedData) in
    match Firecrawl.checkBrokenLinksAt fetchAt linkUrls with
    | Rejected message =>
        (500%Z, ErrorBody (if truthy message then message
                           else "Internal server error"))
    | Fulfilled brokenLinksResult =>
        let enhancedLinks :=
          enhanceLinks (FirecrawlScrape.Scraped.links scrapedData)
                       (brokenLinksMap brokenLinksResult) in
        let enhancedData :=
          mkScrapedData (FirecrawlScrape.Scraped.url scrapedData)
                        (FirecrawlScrape.Scraped.title scrapedData)
                        (FirecrawlScrape.Scraped.headings scrapedData)
                        enhancedLinks
                        (FirecrawlScrape.Scraped.screenshot scrapedData) in
        let issues := Firecrawl.analyzeWebsiteIssues enhancedData in
        (200%Z,
         ResultBody (FirecrawlScrape.Scraped.url scrapedData)
                    (FirecrawlScrape.Scraped.title scrapedData)
                    (FirecrawlScrape.Scraped.headings scrapedData)
                    enhancedLinks
                    (FirecrawlScrape.Scraped.screenshot scrapedData)
                    issues)
    end.
End Handler.

End Route.

(* ===================================================================== *)
(** ** Vocabulary of the properties *)
(* ===================================================================== *)

(** How many issues of a list satisfy a test. *)
Definition countIssues (p : Issue.t -> bool) (issues : list Issue.t) : nat :=
  List.length (filter p issues).

Definition hasType (ty : string) (i : Issue.t) : bool :=
  String.eqb (Issue.type i) ty.

Definition hasTypeSeverity (ty sev : string) (i : Issue.t) : bool :=
  String.eqb (Issue.type i) ty && String.eqb (Issue.severity i) sev.

(** Number of level-1 headings and of broken links of a document. *)
Definition h1Count (d : ScrapedData) : nat :=
  List.length (filter (levelIs 1) (headings d)).

Definition brokenCount (d : ScrapedData) : nat :=
  List.length (filter Link.isBroken (links d)).

(** The description the browser-automation analyzer gives a document with
    [n] broken links. *)
Definition brokenLinksDescription (n : nat) : string :=
  ("The page contains " ++ JS.showNat n
   ++ " broken links that should be fixed.")%string.

Definition isBrokenLinksIssue (n : nat) (i : Issue.t) : bool :=
  hasTypeSeverity "Broken Links" "high" i
  && String.eqb (Issue.description i) (brokenLinksDescription n).

(** The document of the broken-link scenario, and an empty page that
    has a title. *)
Definition brokenLinkPage : ScrapedData :=
  mkScrapedData "https://x/" (Some "Example Domain")
                [Heading.mk "h1" "Example Domain" (Some 1%Z)]
                [Link.mk "https://x/broken" "go" true]
                (Some "data:image/png;base64,AAAA").

Definition emptyPage : ScrapedData :=
  mkScrapedData "https://x/" (Some "Example Domain") [] [] None.

Definition twoH1Page : ScrapedData :=
  mkScrapedData "https://x/" (Some "Example Domain")
                [Heading.mk "h1" "A" (Some 1%Z); Heading.mk "h1" "B" (Some 1%Z)]
                [] None.

(** The heading a pattern match stands for, and whether the loop of
    [extractHeadings] keeps it. *)
Definition headingOf (m : JS.captures) : Heading.t :=
  let tag := JS.toLowerCase (JS.capture 1 m) in
  Heading.mk tag (Firecrawl.visibleText (JS.capture 2 m))
             (JS.parseInt10 (JS.removeFirst "h" tag)).

Definition keepsHeading (m : JS.captures) : bool :=
  JS.truthy (Firecrawl.visibleText (JS.capture 2 m)).

(** The entries one anchor match adds to the links, when resolving its
    href does not throw. *)
Definition anchorEntry (newURL : string -> option Firecrawl.URL.t)
           (baseUrl : string) (m : JS.captures) : list Anchor.t :=
  match Firecrawl.resolveHref newURL baseUrl (JS.capture 1 m) with
  | JS.Normal href =>
      if JS.startsWith href "http"
         && JS.truthy (Firecrawl.visibleText (JS.capture 2 m))
      then [Anchor.mk href (Firecrawl.visibleText (JS.capture 2 m))]
      else []
  | JS.Throw _ => []
  end.

(** A URL string with the scheme [http] or [https]. *)
Definition hasHttpScheme (s : string) : bool :=
  JS.startsWith (JS.toLowerCase s) "http:"
  || JS.startsWith (JS.toLowerCase s) "https:".

(** A base URL and what [new URL] makes of it. *)
Definition sampleBase : string := "https://x.com/a/b.html".

Definition sampleNewURL (s : string) : option Firecrawl.URL.t :=
  if String.eqb s sampleBase
  then Some (Firecrawl.URL.mk "https:" "x.com" "/a/b.html")
  else None.

(** What the Firecrawl prober records for one link: broken when the
    request is rejected or the response is not [ok]. *)
Definition probeOutcome (fetch : string -> JS.Promise Z) (url : string)
  : Firecrawl.LinkStatus.t :=
  Firecrawl.LinkStatus.mk url
    match fetch url with
    | JS.Fulfilled status => negb (Firecrawl.ok status)
    | JS.Rejected _ => true
    end.


(** What the browser-automation prober records for one link. *)
Definition gotoOutcome (goto : string -> JS.Promise (option Z)) (url : string)
  : Puppeteer.LinkStatus.t :=
  Puppeteer.LinkStatus.mk url
    match goto url with
    | JS.Fulfilled (Some status) => (400 <=? status)%Z
    | JS.Fulfilled None => true
    | JS.Rejected _ => true
    end.

(** The words of a text as [calculateSentiment] sees them, and the hits
    in the two word lists. *)
Definition sentimentWords (text : string) : list string :=
  JS.splitPlus JS.isSpace (JS.toLowerCase text).

Definition positiveHits (text : string) : nat :=
  List.length (filter (JS.includes ContentAnalyzer.positiveWords)
                      (sentimentWords text)).

Definition negativeHits (text : string) : nat :=
  List.length (filter (JS.includes ContentAnalyzer.negativeWords)
                      (sentimentWords text)).

(** (p - n) / (p + n) *)
Definition sentimentFormula (p n : nat) : Q :=
  ((inject_Z (Z.of_nat p) - inject_Z (Z.of_nat n))
   / (inject_Z (Z.of_nat p) + inject_Z (Z.of_nat n)))%Q.

(** The total length of the heading texts, as [generateSuggestions]
    sums it. *)
Definition headingTextLength (data : ScrapedData) : nat :=
  fold_left (fun acc h => acc + String.length (Heading.text h))
            (headings data) 0.

(** A page that passes every structural check of [generateSuggestions]:
    one H1 of 300 characters, no links, a screenshot. *)
Definition wellFormedPage : ScrapedData :=
  mkScrapedData "https://x/" (Some "Example Domain")
                [Heading.mk "h1"
                   (String.concat EmptyString (repeat "0123456789" 30))
                   (Some 1%Z)]
                [] (Some "data:image/png;base64,AAAA").

(** The words and the sentences [calculateReadabilityScore] counts. *)
Definition readabilityWords (text : string) : list string :=
  JS.filterBoolean (JS.splitPlus JS.isSpace text).

Definition readabilitySentences (text : string) : list string :=
  JS.filterBoolean (JS.splitPlus ContentAnalyzer.isSentenceEnd text).

(** A page without headings and links whose title is a single space. *)
Definition blankTitlePage : ScrapedData :=
  mkScrapedData "https://x/" (Some " ") [] [] None.

(** The document with the [isBroken] flag of every link set by [f]. *)
Definition reflag (f : Link.t -> bool) (d : ScrapedData) : ScrapedData :=
  mkScrapedData (url d) (title d) (headings d)
                (map (fun l => Link.mk (Link.href l) (Link.text l) (f l))
                     (links d))
                (screenshot d).

(** Somewhere a heading is more than one level deeper than the heading
    right before it. *)
Definition levelSkip (levels : list (option Z)) : Prop :=
  exists i a b,
    nth_error levels i = Some (Some a)
    /\ nth_error levels (S i) = Some (Some b)
    /\ (a + 1 < b)%Z.

(** A page the Firecrawl analyzer has nothing to say about. *)
Definition cleanPage (d : ScrapedData) : Prop :=
  (exists t, title d = Some t
             /\ Firecrawl.blank t = false
             /\ 10 <= String.length t <= 60)
  /\ h1Count d = 1
  /\ ~ levelSkip (map Heading.level (headings d))
  /\ Forall (fun h => Firecrawl.blank (Heading.text h) = false) (headings d)
  /\ Forall (fun l => Firecrawl.blank (Link.text l) = false
                      /\ Firecrawl.nonDescriptive (JS.trim (Link.text l)) = false)
            (links d).

(** A lower-case letter, a digit or the underscore. *)
Definition isKeywordChar (c : ascii) : bool :=
  let n := nat_of_ascii c in
  ((48 <=? n) && (n <=? 57)) || ((97 <=? n) && (n <=? 122)) || (n =? 95).

Fixpoint allChars (p : ascii -> bool) (s : string) : bool :=
  match s with
  | EmptyString => true
  | String c s' => p c && allChars p s'
  end.

(** The texts of the level-[n] headings, in document order. *)
Definition textsOfLevel (n : Z) (hs : list Heading.t) : list string :=
  map Heading.text (filter (levelIs n) hs).

(** The text holds a closing bracket. *)
Fixpoint hasClosing (s : string) : bool :=
  match s with
  | EmptyString => false
  | String c s' => Ascii.eqb c ">" || hasClosing s'
  end.

(** The text holds an opening bracket with a closing bracket somewhere
    after it: what the tag pattern of the extractor would still match. *)
Fixpoint hasTag (s : string) : bool :=
  match s with
  | EmptyString => false
  | String c s' => (Ascii.eqb c "<" && hasClosing s') || hasTag s'
  end.

(** What follows the first closing bracket of the text, if it has one. *)
Fixpoint afterClosing (s : string) : option string :=
  match s with
  | EmptyString => None
  | String c s' => if Ascii.eqb c ">" then Some s' else afterClosing s'
  end.

(** The fail-open answer of the link checkers: nothing is broken. *)
Definition noneBroken (links : list string) : list FirecrawlApi.LinkStatus.t :=
  map (fun url => FirecrawlApi.LinkStatus.mk url false) links.

(** What the prober records for the request at position [n]. *)
Definition requestOutcome (fetchAt : nat -> string -> JS.Promise Z)
           (n : nat) (url : string) : Firecrawl.LinkStatus.t :=
  Firecrawl.LinkStatus.mk url
    match fetchAt n url with
    | JS.Fulfilled status => negb (Firecrawl.ok status)
    | JS.Rejected _ => true
    end.

(** The outcomes of the requests for a list of links whose first entry
    is at position [i]. *)
Fixpoint requestOutcomes (fetchAt : nat -> string -> JS.Promise Z)
         (i : nat) (links : list string) : list Firecrawl.LinkStatus.t :=
  match links with
  | [] => []
  | url :: rest =>
      requestOutcome fetchAt i url :: requestOutcomes fetchAt (S i) rest
  end.

(** The flag of the last outcome recorded for a URL; [false] when there
    is none. *)
Definition lastFlag (outcomes : list Firecrawl.LinkStatus.t) (url : string)
  : bool :=
  match find (fun r => String.eqb (Firecrawl.LinkStatus.url r) url)
             (rev outcomes) with
  | Some r => Firecrawl.LinkStatus.isBroken r
  | None => false
  end.

(** A page with a heading that holds no text, and its heading elements
    as the DOM has them. *)
Definition emptyHeadingHtml : string := "<h1>Title</h1><h2> <b></b> </h2>".

Definition emptyHeadingElements : list Puppeteer.HeadingElement.t :=
  [Puppeteer.HeadingElement.mk "H1" (Some "Title");
   Puppeteer.HeadingElement.mk "H2" (Some "  ")].

(** A heading element whose content runs over two lines. *)
Definition twoLineHeadingHtml : string :=
  ("<h1>Main" ++ String "010" "Title</h1>")%string.

(** An anchor around an image: a non-empty href and no text. *)
Definition imageAnchorHtml : string :=
  "<a href='https://x.com/home'><img src='logo.png'></a>".

(** A document with the given headings and links. *)
Definition pageOf (hs : list Heading.t) (ls : list Link.t) : ScrapedData :=
  mkScrapedData "https://x/" (Some "Example Domain") hs ls None.

(** The words of a text as a reader counts them: its maximal runs of
    letters, in lower case, whatever punctuation surrounds them. *)
Definition isLetter (c : ascii) : bool :=
  let n := nat_of_ascii c in
  ((65 <=? n) && (n <=? 90)) || ((97 <=? n) && (n <=? 122)).

Definition wordsOfText (text : string) : list string :=
  JS.filterBoolean
    (JS.splitPlus (fun c => negb (isLetter c)) (JS.toLowerCase text)).

(** How many words of the text are in a word list. *)
Definition listWordsIn (wordList : list string) (text : string) : nat :=
  List.length (filter (JS.includes wordList) (wordsOfText text)).

(* ===================================================================== *)
(** ** The issue analyzers *)
(* ===================================================================== *)

Section IssueCounting.
Variable p : Issue.t -> bool.

Lemma countIssues_app (l1 l2 : list Issue.t) :
  countIssues p (l1 ++ l2) = countIssues p l1 + countIssues p l2.
Proof.
  unfold countIssues. rewrite filter_app, length_app. reflexivity.
Qed.

Lemma countIssues_pushIf (c : bool) (i : Issue.t) (issues : list Issue.t) :
  countIssues p (pushIf c i issues)
  = countIssues p issues + (if c && p i then 1 else 0).
Proof.
  unfold pushIf. destruct c; simpl.
  - rewrite countIssues_app. unfold countIssues at 2. simpl.
    destruct (p i); reflexivity.
  - lia.
Qed.

Lemma countIssues_nil : countIssues p [] = 0.
Proof. reflexivity. Qed.
End IssueCounting.

(** Rewrites the count of a fully unfolded analyzer run into a sum with
    one summand per rule, and evaluates the tests on the literal types. *)
Ltac count_rules :=
  cbv zeta;
  repeat rewrite countIssues_pushIf;
  rewrite countIssues_nil;
  unfold isBrokenLinksIssue, hasTypeSeverity, hasType;
  cbn [Issue.type Issue.severity Issue.description];
  repeat match goal with
         | |- context [String.eqb ?a ?b] =>
             match a with String _ _ => idtac | EmptyString => idtac end;
             match b with String _ _ => idtac | EmptyString => idtac end;
             let v := eval vm_compute in (String.eqb a b) in
             change (String.eqb a b) with v
         end;
  cbn [andb];
  repeat rewrite Bool.andb_false_r;
  repeat rewrite Bool.andb_true_r.

(** The Firecrawl analyzer has no rule for broken links and none for a
    page without headings. *)
Lemma firecrawl_never_reports_broken_links (d : ScrapedData) :
  countIssues (hasType "Broken Links") (Firecrawl.analyzeWebsiteIssues d) = 0.
Proof.
  unfold Firecrawl.analyzeWebsiteIssues. count_rules. reflexivity.
Qed.

Lemma firecrawl_never_reports_no_headings (d : ScrapedData) :
  countIssues (hasType "No Headings") (Firecrawl.analyzeWebsiteIssues d) = 0.
Proof.
  unfold Firecrawl.analyzeWebsiteIssues. count_rules. reflexivity.
Qed.

(** X7.  The browser-automation analyzer reports the broken links of a document
    in one issue that carries their number. *)
Lemma puppeteer_reports_broken_links (d : ScrapedData) :
  0 < brokenCount d ->
  countIssues (hasType "Broken Links") (Puppeteer.analyzeWebsiteIssues d) = 1
  /\ countIssues (isBrokenLinksIssue (brokenCount d))
                 (Puppeteer.analyzeWebsiteIssues d) = 1.
Proof.
  intros Hpos. unfold brokenCount in *.
  apply Nat.ltb_lt in Hpos.
  unfold Puppeteer.analyzeWebsiteIssues. split.
  - count_rules. rewrite Hpos. reflexivity.
  - count_rules. unfold brokenLinksDescription.
    rewrite String.eqb_refl, Hpos. reflexivity.
Qed.

(** X8.  The browser-automation analyzer reports a document without headings
    twice: as having no headings and as missing its H1, both of medium
    severity. *)
Lemma puppeteer_reports_no_headings (d : ScrapedData) :
  headings d = [] ->
  countIssues (hasTypeSeverity "No Headings" "medium")
              (Puppeteer.analyzeWebsiteIssues d) = 1
  /\ countIssues (hasTypeSeverity "Missing H1" "medium")
                 (Puppeteer.analyzeWebsiteIssues d) = 1.
Proof.
  intros Hnone. unfold Puppeteer.analyzeWebsiteIssues.
  split; count_rules; rewrite Hnone; reflexivity.
Qed.

(** X9.  The browser-automation analyzer names and ranks the two H1 rules
    differently from the Firecrawl analyzer. *)
Lemma puppeteer_h1_rules (d : ScrapedData) :
  (h1Count d = 0 ->
   countIssues (hasTypeSeverity "Missing H1" "medium")
               (Puppeteer.analyzeWebsiteIssues d) = 1
   /\ countIssues (hasTypeSeverity "Missing H1" "high")
                  (Puppeteer.analyzeWebsiteIssues d) = 0)
  /\ (1 < h1Count d ->
      countIssues (hasTypeSeverity "Multiple H1 Headings" "low")
                  (Puppeteer.analyzeWebsiteIssues d) = 1
      /\ countIssues (hasType "Multiple H1s")
                     (Puppeteer.analyzeWebsiteIssues d) = 0).
Proof.
  unfold h1Count, Puppeteer.analyzeWebsiteIssues. split.
  - intros Hzero.
    assert (Hnone : existsb (levelIs 1) (headings d) = false).
    { destruct (existsb (levelIs 1) (headings d)) eqn:E; [|reflexivity].
      apply existsb_exists in E. destruct E as [h [Hin Hh]].
      assert (Hf : In h (filter (levelIs 1) (headings d)))
        by (apply filter_In; split; assumption).
      destruct (filter (levelIs 1) (headings d)); [contradiction|discriminate]. }
    split; count_rules; rewrite ?Hnone; reflexivity.
  - intros Hmany. apply Nat.ltb_lt in Hmany.
    split; count_rules; rewrite ?Hmany; reflexivity.
Qed.

(** C7. For every document without a level-1 heading the Firecrawl
    analyzer emits exactly one issue of type "Missing H1", of severity
    "high"; for every document with more than one level-1 heading it emits
    exactly one issue of type "Multiple H1s", of severity "medium". *)
Theorem firecrawl_h1_rules (d : ScrapedData) :
  (h1Count d = 0 ->
   countIssues (hasType "Missing H1") (Firecrawl.analyzeWebsiteIssues d) = 1
   /\ countIssues (hasTypeSeverity "Missing H1" "high")
                  (Firecrawl.analyzeWebsiteIssues d) = 1)
  /\ (1 < h1Count d ->
      countIssues (hasType "Multiple H1s") (Firecrawl.analyzeWebsiteIssues d) = 1
      /\ countIssues (hasTypeSeverity "Multiple H1s" "medium")
                     (Firecrawl.analyzeWebsiteIssues d) = 1).
Proof.
  unfold h1Count, Firecrawl.analyzeWebsiteIssues. split.
  - intros Hzero. apply Nat.eqb_eq in Hzero.
    split; count_rules; rewrite Hzero; reflexivity.
  - intros Hmany. apply Nat.ltb_lt in Hmany.
    split; count_rules; rewrite Hmany; reflexivity.
Qed.

Lemma firecrawl_h1_rules_witness :
  (h1Count emptyPage = 0
   /\ countIssues (hasTypeSeverity "Missing H1" "high")
                  (Firecrawl.analyzeWebsiteIssues emptyPage) = 1)
  /\ (1 < h1Count twoH1Page
      /\ countIssues (hasTypeSeverity "Multiple H1s" "medium")
                     (Firecrawl.analyzeWebsiteIssues twoH1Page) = 1).
Proof.
  split; split.
  - reflexivity.
  - apply (proj1 (firecrawl_h1_rules emptyPage)). reflexivity.
  - unfold h1Count. simpl. lia.
  - apply (proj2 (firecrawl_h1_rules twoH1Page)). unfold h1Count. simpl. lia.
Defined.

(** C1. On the document of the broken-link scenario the Firecrawl analyzer,
    which the scrape route calls, returns no issue of type "Broken Links",
    although the document has one broken link; the browser-automation
    analyzer returns exactly one, of severity "high", whose description
    carries the count 1. *)
Theorem firecrawl_misses_broken_links :
  brokenCount brokenLinkPage = 1
  /\ Firecrawl.analyzeWebsiteIssues brokenLinkPage = []
  /\ countIssues (hasType "Broken Links")
                 (Firecrawl.analyzeWebsiteIssues brokenLinkPage) = 0
  /\ countIssues (hasType "Broken Links")
                 (Puppeteer.analyzeWebsiteIssues brokenLinkPage) = 1
  /\ countIssues (isBrokenLinksIssue 1)
                 (Puppeteer.analyzeWebsiteIssues brokenLinkPage) = 1.
Proof. repeat split; vm_compute; reflexivity. Qed.

(** C2. On a page with a title and neither headings nor links the
    Firecrawl analyzer returns the single issue "Missing H1": the list is
    not empty, but it holds no issue of type "No Headings"; the
    browser-automation analyzer returns both "No Headings" (medium) and
    "Missing H1". *)
Theorem firecrawl_misses_no_headings :
  Firecrawl.analyzeWebsiteIssues emptyPage
  = [Issue.mk "Missing H1"
       "The page is missing an H1 heading which is important for SEO."
       "high" None]
  /\ countIssues (hasType "No Headings")
                 (Firecrawl.analyzeWebsiteIssues emptyPage) = 0
  /\ countIssues (hasTypeSeverity "No Headings" "medium")
                 (Puppeteer.analyzeWebsiteIssues emptyPage) = 1
  /\ countIssues (hasType "Missing H1")
                 (Puppeteer.analyzeWebsiteIssues emptyPage) = 1.
Proof. repeat split; vm_compute; reflexivity. Qed.

(* ===================================================================== *)
(** ** The structural extractor *)
(* ===================================================================== *)

Lemma extractHeadingsFrom_acc (ms : list JS.captures) (acc : list Heading.t) :
  fold_left Firecrawl.headingStep ms acc
  = acc ++ map headingOf (filter keepsHeading ms).
Proof.
  revert acc. induction ms as [|m ms IH]; intros acc; simpl.
  - rewrite app_nil_r. reflexivity.
  - rewrite IH. unfold Firecrawl.headingStep, keepsHeading at 2.
    destruct (JS.truthy (Firecrawl.visibleText (JS.capture 2 m))); simpl.
    + rewrite <- app_assoc. reflexivity.
    + reflexivity.
Qed.

Lemma trimEnd_cons (c : ascii) (s : string) :
  JS.trimEnd (String c s)
  = match JS.trimEnd s with
    | EmptyString => if JS.isSpace c then EmptyString else String c EmptyString
    | String c' t => String c (String c' t)
    end.
Proof. reflexivity. Qed.

Lemma trimEnd_idempotent (s : string) : JS.trimEnd (JS.trimEnd s) = JS.trimEnd s.
Proof.
  induction s as [|c s IH]; [reflexivity|].
  rewrite trimEnd_cons.
  destruct (JS.trimEnd s) as [|c' t] eqn:E.
  - destruct (JS.isSpace c) eqn:Ec; [reflexivity|].
    rewrite trimEnd_cons. simpl. rewrite Ec. reflexivity.
  - rewrite trimEnd_cons, IH. reflexivity.
Qed.

Lemma trimStart_fixed (s : string) :
  match s with
  | EmptyString => True
  | String c _ => JS.isSpace c = false
  end ->
  JS.trimStart s = s.
Proof. destruct s as [|c s]; simpl; [reflexivity|]. intros ->. reflexivity. Qed.

Lemma trimEnd_head (c : ascii) (s : string) :
  JS.isSpace c = false ->
  exists t, JS.trimEnd (String c s) = String c t.
Proof.
  intros Hc. simpl. destruct (JS.trimEnd s).
  - rewrite Hc. eexists; reflexivity.
  - eexists; reflexivity.
Qed.

Lemma trimStart_head (s : string) :
  match JS.trimStart s with
  | EmptyString => True
  | String c _ => JS.isSpace c = false
  end.
Proof.
  induction s as [|c s IH]; simpl; [exact I|].
  destruct (JS.isSpace c) eqn:Ec; [exact IH | exact Ec].
Qed.

(** [trim] is idempotent: a trimmed text that is not empty is not blank. *)
Lemma trim_idempotent (s : string) : JS.trim (JS.trim s) = JS.trim s.
Proof.
  unfold JS.trim.
  pose proof (trimStart_head s) as Hhead.
  destruct (JS.trimStart s) as [|c t] eqn:E; [reflexivity|].
  destruct (trimEnd_head c t Hhead) as [t' Ht'].
  rewrite Ht'. rewrite trimStart_fixed by exact Hhead.
  rewrite <- Ht'. apply trimEnd_idempotent.
Qed.

(** What the Firecrawl extractor does: its headings are those of the
    pattern matches whose text, tags removed and trimmed, is not empty, in
    document order; a match with an empty trimmed text yields no entry,
    and no heading of the output has an empty text. *)
Theorem extractHeadings_drops_empty (html : string) :
  Firecrawl.extractHeadings html
  = map headingOf (filter keepsHeading (JS.execAll Firecrawl.headingRegex 0 html))
  /\ Forall (fun h => Heading.text h <> EmptyString)
            (Firecrawl.extractHeadings html)
  /\ (forall m, Firecrawl.visibleText (JS.capture 2 m) = EmptyString ->
                Firecrawl.headingStep [] m = []).
Proof.
  assert (Heq : Firecrawl.extractHeadings html
                = map headingOf
                      (filter keepsHeading
                              (JS.execAll Firecrawl.headingRegex 0 html))).
  { unfold Firecrawl.extractHeadings, Firecrawl.extractHeadingsFrom.
    rewrite extractHeadingsFrom_acc. reflexivity. }
  split; [exact Heq|]. split.
  - rewrite Heq. apply Forall_forall. intros h Hin.
    apply in_map_iff in Hin. destruct Hin as [m [<- Hm]].
    apply filter_In in Hm. destruct Hm as [_ Hkeep].
    unfold keepsHeading in Hkeep. unfold headingOf. simpl.
    intros Hempty. rewrite Hempty in Hkeep. discriminate.
  - intros m Hempty. unfold Firecrawl.headingStep. rewrite Hempty. reflexivity.
Qed.

Lemma extractHeadings_drops_empty_witness :
  Firecrawl.visibleText (JS.capture 2 (JS.setCapture 2 "  " JS.noCaptures))
  = EmptyString
  /\ Firecrawl.headingStep [] (JS.setCapture 2 "  " JS.noCaptures) = [].
Proof.
  split; [reflexivity|].
  apply (proj2 (proj2 (extractHeadings_drops_empty EmptyString))).
  reflexivity.
Defined.

(** C3.  Of the two heading elements of this page the extractor returns
    the first only: the second, whose text trims to the empty string, is
    dropped, where the claim keeps it with an empty text.  The extractor
    of the browser-automation client returns both.  The "Empty Headings"
    rule of the analyzer in the extractor's own file fires on the two
    headings and cannot fire on what the extractor returns. *)
Theorem extractHeadings_empty_heading_lost :
  List.length (JS.execAll Firecrawl.headingRegex 0 emptyHeadingHtml) = 2
  /\ Firecrawl.extractHeadings emptyHeadingHtml
     = [Heading.mk "h1" "Title" (Some 1%Z)]
  /\ Puppeteer.scrapeHeadings emptyHeadingElements
     = [Heading.mk "h1" "Title" (Some 1%Z);
        Heading.mk "h2" EmptyString (Some 2%Z)]
  /\ countIssues (hasType "Empty Headings")
       (Firecrawl.analyzeWebsiteIssues
          (pageOf (Puppeteer.scrapeHeadings emptyHeadingElements) [])) = 1
  /\ countIssues (hasType "Empty Headings")
       (Firecrawl.analyzeWebsiteIssues
          (pageOf (Firecrawl.extractHeadings emptyHeadingHtml) [])) = 0.
Proof. repeat split; vm_compute; reflexivity. Qed.

(** The pattern of the extractor does not cross a line break either: a
    heading element whose content runs over two lines yields no entry. *)
Lemma extractHeadings_two_line_heading_lost :
  Firecrawl.extractHeadings twoLineHeadingHtml = []
  /\ Firecrawl.extractHeadings "<h1>Main Title</h1>"
     = [Heading.mk "h1" "Main Title" (Some 1%Z)].
Proof. split; vm_compute; reflexivity. Qed.

(** The browser-automation extractor keeps every heading element, also
    one with an empty text. *)
Lemma scrapeHeadings_keeps_all (els : list Puppeteer.HeadingElement.t) :
  List.length (Puppeteer.scrapeHeadings els) = List.length els.
Proof. unfold Puppeteer.scrapeHeadings. apply length_map. Qed.

(** On the output of the Firecrawl extractor the "Empty Headings" rule of
    the Firecrawl analyzer never fires. *)
Lemma extractHeadings_never_blank (html : string) :
  filter (fun h => Firecrawl.blank (Heading.text h))
         (Firecrawl.extractHeadings html) = [].
Proof.
  unfold Firecrawl.extractHeadings, Firecrawl.extractHeadingsFrom.
  rewrite extractHeadingsFrom_acc. simpl.
  induction (JS.execAll Firecrawl.headingRegex 0 html) as [|m ms IH].
  - reflexivity.
  - simpl. unfold keepsHeading at 1.
    destruct (JS.truthy (Firecrawl.visibleText (JS.capture 2 m))) eqn:E;
      [|exact IH].
    simpl. unfold Firecrawl.blank at 1, Firecrawl.visibleText at 1.
    rewrite trim_idempotent.
    unfold Firecrawl.visibleText in E.
    destruct (JS.trim (JS.removeAll Firecrawl.tagRegex 0 (JS.capture 2 m)));
      [discriminate|]. simpl. exact IH.
Qed.

Section LinkExtraction.
Variable newURL : string -> option Firecrawl.URL.t.
Variable baseUrl : string.

Lemma extractLinksFrom_acc (ms : list JS.captures) :
  forall acc links,
    Firecrawl.extractLinksFrom newURL baseUrl ms acc = JS.Normal links ->
    links = acc ++ flat_map (anchorEntry newURL baseUrl) ms.
Proof.
  induction ms as [|m ms IH]; intros acc links H; simpl in H.
  - injection H as <-. simpl. rewrite app_nil_r. reflexivity.
  - simpl. unfold anchorEntry at 1.
    destruct (Firecrawl.resolveHref newURL baseUrl (JS.capture 1 m))
      as [href|e]; [|discriminate].
    destruct (JS.startsWith href "http"
              && JS.truthy (Firecrawl.visibleText (JS.capture 2 m))).
    + apply IH in H. rewrite H, <- app_assoc. reflexivity.
    + apply IH in H. exact H.
Qed.

Lemma anchorEntry_sound (m : JS.captures) (a : Anchor.t) :
  In a (anchorEntry newURL baseUrl m) ->
  JS.startsWith (Anchor.href a) "http" = true
  /\ Anchor.text a = Firecrawl.visibleText (JS.capture 2 m)
  /\ Anchor.text a <> EmptyString.
Proof.
  unfold anchorEntry.
  destruct (Firecrawl.resolveHref newURL baseUrl (JS.capture 1 m))
    as [href|e]; [|intros []].
  destruct (JS.startsWith href "http") eqn:Eh; [|intros []].
  destruct (JS.truthy (Firecrawl.visibleText (JS.capture 2 m))) eqn:Et;
    [|intros []].
  simpl. intros [<-|[]]. simpl. repeat split; try assumption.
  intros Hempty. rewrite Hempty in Et. discriminate.
Qed.

(** Every href of the output begins with the four characters [http]. *)
Lemma extractLinks_href_prefix (html : string) (links : list Anchor.t) :
  Firecrawl.extractLinks newURL html baseUrl = JS.Normal links ->
  Forall (fun a => JS.startsWith (Anchor.href a) "http" = true) links.
Proof.
  intros H. apply extractLinksFrom_acc in H. subst links. simpl.
  apply Forall_forall. intros a Hin. apply in_flat_map in Hin.
  destruct Hin as [m [_ Hin]]. apply anchorEntry_sound in Hin. tauto.
Qed.

(** What the Firecrawl extractor does.  When the extractor returns,
    its links are those of the anchor matches whose resolved href begins
    with [http] and whose text, tags removed and trimmed, is not empty,
    in document order; the text of a link is that trimmed text, never
    the href standing in for it, and an anchor with an empty trimmed
    text adds no entry. *)
Theorem extractLinks_drops_empty_text (html : string) (links : list Anchor.t) :
  Firecrawl.extractLinks newURL html baseUrl = JS.Normal links ->
  links = flat_map (anchorEntry newURL baseUrl)
                   (JS.execAll Firecrawl.linkRegex 0 html)
  /\ Forall (fun a => Anchor.text a <> EmptyString) links
  /\ (forall m acc out,
         Firecrawl.visibleText (JS.capture 2 m) = EmptyString ->
         Firecrawl.extractLinksFrom newURL baseUrl [m] acc = JS.Normal out ->
         out = acc).
Proof.
  intros H. apply extractLinksFrom_acc in H. simpl in H. repeat split.
  - exact H.
  - subst links. apply Forall_forall. intros a Hin.
    apply in_flat_map in Hin. destruct Hin as [m [_ Hin]].
    apply anchorEntry_sound in Hin. tauto.
  - intros m acc out Hempty Hrun. simpl in Hrun.
    destruct (Firecrawl.resolveHref newURL baseUrl (JS.capture 1 m));
      [|discriminate].
    rewrite Hempty, Bool.andb_false_r in Hrun.
    injection Hrun as <-. reflexivity.
Qed.
End LinkExtraction.

Lemma extractLinks_drops_empty_text_witness :
  Firecrawl.extractLinks sampleNewURL "<a href='/about'>About</a>" sampleBase
  = JS.Normal [Anchor.mk "https://x.com/about" "About"]
  /\ Forall (fun a => Anchor.text a <> EmptyString)
            [Anchor.mk "https://x.com/about" "About"].
Proof.
  split; [reflexivity|].
  apply (extractLinks_drops_empty_text sampleNewURL sampleBase
           "<a href='/about'>About</a>").
  reflexivity.
Defined.

(** C4.  The anchor around an image has a non-empty href and a text that
    trims to the empty string.  The extractor matches it and returns no
    entry for it, where the claim has an entry whose text is the href;
    the extractor of the browser-automation client returns that entry.
    The "Empty Links" rule of the analyzer in the extractor's own file
    fires on a link with an empty text, which the extractor never
    returns. *)
Theorem extractLinks_empty_text_lost :
  map (fun m => (JS.capture 1 m, Firecrawl.visibleText (JS.capture 2 m)))
      (JS.execAll Firecrawl.linkRegex 0 imageAnchorHtml)
  = [("https://x.com/home", EmptyString)]
  /\ Firecrawl.extractLinks sampleNewURL imageAnchorHtml sampleBase
     = JS.Normal []
  /\ Puppeteer.scrapeLinks
       [Puppeteer.AnchorElement.mk "https://x.com/home" (Some EmptyString)]
     = [Anchor.mk "https://x.com/home" "https://x.com/home"]
  /\ countIssues (hasType "Empty Links")
       (Firecrawl.analyzeWebsiteIssues
          (pageOf [] [Link.mk "https://x.com/home" EmptyString false])) = 1.
Proof. repeat split; vm_compute; reflexivity. Qed.

(** The browser-automation extractor keeps such an anchor and gives it
    the href as text. *)
Lemma scrapeLinks_falls_back_to_href :
  Puppeteer.scrapeLinks
    [Puppeteer.AnchorElement.mk "https://x.com/home" (Some "  ")]
  = [Anchor.mk "https://x.com/home" "https://x.com/home"].
Proof. reflexivity. Qed.

(** C5. On this page, scraped from [https://x.com/a/b.html], the output
    holds the href [http-faq.html], which is no absolute URL; the href
    [./c] comes out as [https://x.com/a/b.htmlc] where URL resolution
    gives [https://x.com/a/c], and the protocol-relative
    [//cdn.x.com/lib.js] comes out as [https://x.com//cdn.x.com/lib.js]
    where URL resolution gives [https://cdn.x.com/lib.js].  The
    [mailto:] link is dropped. *)
Theorem extractLinks_prefix_test_and_concatenation :
  Firecrawl.extractLinks sampleNewURL
    ("<a href='http-faq.html'>FAQ</a><a href='./c'>C</a>"
     ++ "<a href='//cdn.x.com/lib.js'>lib</a><a href='mailto:a@x.com'>mail</a>")
    sampleBase
  = JS.Normal [Anchor.mk "http-faq.html" "FAQ";
               Anchor.mk "https://x.com/a/b.htmlc" "C";
               Anchor.mk "https://x.com//cdn.x.com/lib.js" "lib"]
  /\ hasHttpScheme "http-faq.html" = false
  /\ sampleNewURL sampleBase
     = Some (Firecrawl.URL.mk "https:" "x.com" "/a/b.html").
Proof. repeat split; vm_compute; reflexivity. Qed.

(* ===================================================================== *)
(** ** The matcher and the heading levels *)
(* ===================================================================== *)

Section MatcherFacts.
Context {R : Type}.

Lemma starGreedy_reaches (p : ascii -> bool) (k : string -> option R)
      (s : string) (res : R) :
  JS.starGreedy p k s = Some res -> exists s', k s' = Some res.
Proof.
  induction s as [|c s IH]; simpl.
  - intros H. exists EmptyString. exact H.
  - destruct (p c).
    + destruct (JS.starGreedy p k s) as [r|] eqn:E.
      * intros H. injection H as <-. apply IH. reflexivity.
      * intros H. eexists. exact H.
    + intros H. eexists. exact H.
Qed.

Lemma starLazy_reaches (p : ascii -> bool) (k : string -> option R)
      (s : string) (res : R) :
  JS.starLazy p k s = Some res -> exists s', k s' = Some res.
Proof.
  induction s as [|c s IH]; simpl.
  - destruct (k EmptyString) as [r|] eqn:E; [|discriminate].
    intros H. injection H as <-. eexists. exact E.
  - destruct (k (String c s)) as [r|] eqn:E.
    + intros H. injection H as <-. eexists. exact E.
    + destruct (p c); [exact IH | discriminate].
Qed.

End MatcherFacts.

Lemma execAll_matches (r : JS.regex) (s : string) :
  forall skip cs,
    In cs (JS.execAll r skip s) ->
    exists s' rest, JS.matchAt r s' = Some (cs, rest).
Proof.
  induction s as [|c s IH]; intros skip cs Hin; simpl in Hin; [contradiction|].
  destruct skip as [|skip]; [|eauto].
  destruct (JS.matchAt r (String c s)) as [[cs0 rest]|] eqn:E; [|eauto].
  destruct Hin as [<-|Hin]; eauto.
Qed.

Lemma consumed_two (c1 c2 : ascii) (s : string) :
  JS.consumed (String c1 (String c2 s)) s = String c1 (String c2 EmptyString).
Proof.
  unfold JS.consumed. simpl String.length.
  replace (S (S (String.length s)) - String.length s) with 2 by lia.
  destruct s; reflexivity.
Qed.

(** Group 1 of a heading match is [h] or [H] and a digit from 1 to 6. *)
Lemma headingRegex_group1 (s rest : string) (cs : JS.captures) :
  JS.matchAt Firecrawl.headingRegex s = Some (cs, rest) ->
  exists c1 c2,
    cs 1 = Some (String c1 (String c2 EmptyString))
    /\ JS.eqbCI "h" c1 = true /\ Firecrawl.oneToSix c2 = true.
Proof.
  unfold JS.matchAt, Firecrawl.headingRegex. simpl.
  destruct s as [|c0 s]; [discriminate|].
  destruct (JS.eqbCI "<" c0); [|discriminate].
  destruct s as [|c1 s]; [discriminate|].
  destruct (JS.eqbCI "h" c1) eqn:E1; [|discriminate].
  destruct s as [|c2 s]; [discriminate|].
  destruct (Firecrawl.oneToSix c2) eqn:E2; [|discriminate].
  rewrite consumed_two. intros H.
  apply starGreedy_reaches in H. destruct H as [s1 H]. cbv beta in H.
  destruct s1 as [|c3 s1]; [discriminate|].
  destruct (JS.eqbCI ">" c3); [|discriminate].
  apply starLazy_reaches in H. destruct H as [s2 H]. cbv beta in H.
  destruct s2 as [|c4 s2]; [discriminate|].
  destruct (JS.eqbCI "<" c4); [|discriminate].
  destruct s2 as [|c5 s2]; [discriminate|].
  destruct (JS.eqbCI "/" c5); [|discriminate].
  destruct (JS.prefixCI (String c1 (String c2 "")) s2) as [[|c6 s3]|];
    try discriminate.
  destruct (JS.eqbCI ">" c6); [|discriminate].
  injection H as <- _. exists c1, c2. repeat split; assumption.
Qed.

Lemma level_of_heading_tag (c1 c2 : ascii) :
  JS.eqbCI "h" c1 = true -> Firecrawl.oneToSix c2 = true ->
  exists n,
    JS.parseInt10
      (JS.removeFirst "h" (JS.toLowerCase (String c1 (String c2 EmptyString))))
    = Some n /\ (1 <= n <= 6)%Z.
Proof.
  intros H1 H2.
  assert (Hh : JS.toLowerChar c1 = "h"%char).
  { unfold JS.eqbCI in H1. apply Ascii.eqb_eq in H1. symmetry. exact H1. }
  simpl. rewrite Hh. simpl.
  destruct c2 as [[] [] [] [] [] [] [] []]; try discriminate H2;
    vm_compute; eexists; (split; [reflexivity|]); split; discriminate.
Qed.

(** X10.  Every heading of the Firecrawl extractor has a level from 1 to 6. *)
Lemma extractHeadings_levels (html : string) :
  Forall (fun h => exists n, Heading.level h = Some n /\ (1 <= n <= 6)%Z)
         (Firecrawl.extractHeadings html).
Proof.
  unfold Firecrawl.extractHeadings, Firecrawl.extractHeadingsFrom.
  rewrite extractHeadingsFrom_acc. simpl.
  apply Forall_forall. intros h Hin.
  apply in_map_iff in Hin. destruct Hin as [m [<- Hm]].
  apply filter_In in Hm. destruct Hm as [Hm _].
  apply execAll_matches in Hm. destruct Hm as [s' [rest Hm]].
  apply headingRegex_group1 in Hm. destruct Hm as [c1 [c2 [Hcap [H1 H2]]]].
  unfold headingOf, JS.capture. simpl. rewrite Hcap.
  apply level_of_heading_tag; assumption.
Qed.

(* ===================================================================== *)
(** ** The link prober *)
(* ===================================================================== *)

Lemma slice_batch {A : Type} (l : list A) (i n : nat) :
  JS.slice l i (i + n) ++ skipn (i + n) l = skipn i l.
Proof.
  unfold JS.slice. replace (i + n - i) with n by lia.
  rewrite (Nat.add_comm i n), <- skipn_skipn. apply firstn_skipn.
Qed.

Section FirecrawlProber.
Variable fetch : string -> JS.Promise Z.

Lemma promiseAll_probe (batch : list string) :
  JS.promiseAll (map (Firecrawl.probe fetch) batch)
  = JS.Fulfilled (map (probeOutcome fetch) batch).
Proof.
  induction batch as [|url batch IH]; simpl; [reflexivity|].
  unfold Firecrawl.probe at 1, probeOutcome at 1.
  destruct (fetch url); rewrite IH; reflexivity.
Qed.

Lemma probeBatches_outcomes (links : list string) (i : nat)
      (results : list Firecrawl.LinkStatus.t) :
  Firecrawl.probeBatches fetch links i results
  = JS.Fulfilled (results ++ map (probeOutcome fetch) (skipn i links)).
Proof.
  funelim (Firecrawl.probeBatches fetch links i results).
  - rewrite skipn_all2 by lia. rewrite app_nil_r. reflexivity.
  - match goal with
    | Hall : JS.promiseAll _ = JS.Fulfilled _ |- _ =>
        rewrite promiseAll_probe in Hall; injection Hall as <-
    end.
    match goal with
    | IH : Firecrawl.probeBatches _ _ _ _ = JS.Fulfilled _ |- _ => rewrite IH
    end.
    rewrite <- app_assoc, <- map_app, slice_batch. reflexivity.
  - match goal with
    | Hall : JS.promiseAll _ = JS.Rejected _ |- _ =>
        rewrite promiseAll_probe in Hall; discriminate
    end.
Qed.

End FirecrawlProber.


Section PuppeteerProber.
Variable goto : string -> JS.Promise (option Z).

Lemma promiseAll_goto (chunk : list string) :
  JS.promiseAll (map (Puppeteer.probe goto) chunk)
  = JS.Fulfilled (map (gotoOutcome goto) chunk).
Proof.
  induction chunk as [|url chunk IH]; simpl; [reflexivity|].
  unfold Puppeteer.probe at 1, gotoOutcome at 1.
  destruct (goto url) as [[status|]|e]; rewrite IH; reflexivity.
Qed.

Lemma processChunks_outcomes (chunks : list (list string)) :
  forall results,
    Puppeteer.processChunks goto chunks results
    = JS.Fulfilled (results ++ map (gotoOutcome goto) (List.concat chunks)).
Proof.
  induction chunks as [|chunk chunks IH]; intros results; simpl.
  - rewrite app_nil_r. reflexivity.
  - rewrite promiseAll_goto, IH, map_app, app_assoc. reflexivity.
Qed.

Lemma chunksFrom_concat (links : list string) (i : nat)
      (chunks : list (list string)) :
  List.concat (Puppeteer.chunksFrom links i chunks)
  = List.concat chunks ++ skipn i links.
Proof.
  funelim (Puppeteer.chunksFrom links i chunks).
  - match goal with
    | IH : List.concat (Puppeteer.chunksFrom _ _ _) = _ ++ _ |- _ =>
        rewrite IH
    end.
    rewrite concat_app. simpl. rewrite app_nil_r, <- app_assoc, slice_batch.
    reflexivity.
  - rewrite skipn_all2 by lia. rewrite app_nil_r. reflexivity.
Qed.

(** X17.  The browser-automation prober, once its page is open, records a
    link as broken exactly when the navigation is rejected, has no
    response, or has a status of 400 or more. *)
Lemma puppeteer_prober_outcomes (links : list string) :
  Puppeteer.checkBrokenLinks true goto links
  = JS.Fulfilled (map (gotoOutcome goto) links).
Proof.
  unfold Puppeteer.checkBrokenLinks.
  rewrite processChunks_outcomes, chunksFrom_concat. reflexivity.
Qed.
End PuppeteerProber.

(* ===================================================================== *)
(** ** The heuristic content analyzer *)
(* ===================================================================== *)

Import ContentAnalyzer.

Lemma ltQ_spec (a b : Q) : JS.ltQ a b = true <-> (a < b)%Q.
Proof.
  unfold JS.ltQ. rewrite Bool.negb_true_iff. split.
  - intros H. apply Qnot_le_lt. intros Hle.
    apply Qle_bool_iff in Hle. congruence.
  - intros H. destruct (Qle_bool b a) eqn:E; [|reflexivity].
    apply Qle_bool_iff in E. exfalso. exact (Qlt_not_le _ _ H E).
Qed.

Lemma ltQ_false (a b : Q) : JS.ltQ a b = false <-> (b <= a)%Q.
Proof.
  unfold JS.ltQ. rewrite Bool.negb_false_iff. apply Qle_bool_iff.
Qed.

(** *** Sentiment *)

Lemma countWord_fold (ws : list string) :
  forall p n,
    fold_left countWord ws (p, n)
    = (p + List.length (filter (JS.includes positiveWords) ws),
       n + List.length (filter (JS.includes negativeWords) ws)).
Proof.
  induction ws as [|w ws IH]; intros p n; cbn [fold_left filter].
  - simpl. f_equal; lia.
  - unfold countWord at 2.
    destruct (JS.includes positiveWords w), (JS.includes negativeWords w);
      rewrite IH; cbn [List.length]; f_equal; lia.
Qed.

Lemma sentimentCounts_hits (text : string) :
  sentimentCounts text = (positiveHits text, negativeHits text).
Proof. unfold sentimentCounts. rewrite countWord_fold. reflexivity. Qed.

Lemma sentimentFormula_eq (p n : nat) :
  (inject_Z (Z.of_nat p - Z.of_nat n) / inject_Z (Z.of_nat (p + n))
   == sentimentFormula p n)%Q.
Proof.
  unfold sentimentFormula.
  rewrite Nat2Z.inj_add, inject_Z_plus.
  unfold Z.sub. rewrite inject_Z_plus, inject_Z_opp. reflexivity.
Qed.

(** C8, as the code has it.  The sentiment score is (positive hits -
    negative hits) / (positive hits + negative hits), the hits being the
    lower-cased,
    white-space separated words of the text that are in the positive and
    in the negative list, and it is 0 when there is no hit; the label
    follows the thresholds 0.3, 0.1, -0.1 and -0.3; a text with two
    positive hits and no negative hit has the score 1 and the label
    "Very Positive". *)
Theorem sentiment_score_and_label :
  (forall text,
      exists q, calculateSentiment text = JS.Fin q
                /\ (positiveHits text + negativeHits text = 0 -> (q == 0)%Q)
                /\ (positiveHits text + negativeHits text <> 0 ->
                    (q == sentimentFormula (positiveHits text)
                                           (negativeHits text))%Q))
  /\ (forall q : Q,
         ((3 # 10) < q -> getSentimentAnalysis (JS.Fin q) = "Very Positive")%Q
         /\ ((1 # 10) < q /\ q <= (3 # 10) ->
             getSentimentAnalysis (JS.Fin q) = "Positive")%Q
         /\ ((- 1 # 10) < q /\ q <= (1 # 10) ->
             getSentimentAnalysis (JS.Fin q) = "Neutral")%Q
         /\ ((- 3 # 10) < q /\ q <= (- 1 # 10) ->
             getSentimentAnalysis (JS.Fin q) = "Negative")%Q
         /\ (q <= (- 3 # 10) ->
             getSentimentAnalysis (JS.Fin q) = "Very Negative")%Q)
  /\ (forall text,
         positiveHits text = 2 -> negativeHits text = 0 ->
         exists q, calculateSentiment text = JS.Fin q /\ (q == 1)%Q
                   /\ getSentimentAnalysis (calculateSentiment text)
                      = "Very Positive").
Proof.
  split; [|split].
  - intros text. unfold calculateSentiment.
    rewrite sentimentCounts_hits.
    destruct (positiveHits text + negativeHits text =? 0) eqn:E.
    + apply Nat.eqb_eq in E. exists 0%Q.
      split; [reflexivity|]. split.
      * intros _. reflexivity.
      * intros Hne. contradiction.
    + apply Nat.eqb_neq in E. eexists.
      split; [reflexivity|]. split.
      * intros Hz. contradiction.
      * intros _. apply sentimentFormula_eq.
  - intros q. unfold getSentimentAnalysis, JS.numGt.
    split; [|split; [|split; [|split]]].
    + intros H. apply ltQ_spec in H. rewrite H. reflexivity.
    + intros [H1 H2]. apply ltQ_spec in H1. apply ltQ_false in H2.
      rewrite H2, H1. reflexivity.
    + intros [H1 H2]. apply ltQ_spec in H1. apply ltQ_false in H2.
      assert (H3 : JS.ltQ (3 # 10) q = false).
      { apply ltQ_false. eapply Qle_trans; [exact (proj1 (ltQ_false _ _) H2)|].
        discriminate. }
      rewrite H3, H2, H1. reflexivity.
    + intros [H1 H2]. apply ltQ_spec in H1.
      assert (H3 : JS.ltQ (3 # 10) q = false).
      { apply ltQ_false. eapply Qle_trans; [exact H2|]. discriminate. }
      assert (H4 : JS.ltQ (1 # 10) q = false).
      { apply ltQ_false. eapply Qle_trans; [exact H2|]. discriminate. }
      apply ltQ_false in H2. rewrite H3, H4, H2, H1. reflexivity.
    + intros H.
      assert (H3 : JS.ltQ (3 # 10) q = false).
      { apply ltQ_false. eapply Qle_trans; [exact H|]. discriminate. }
      assert (H4 : JS.ltQ (1 # 10) q = false).
      { apply ltQ_false. eapply Qle_trans; [exact H|]. discriminate. }
      assert (H5 : JS.ltQ (- 1 # 10) q = false).
      { apply ltQ_false. eapply Qle_trans; [exact H|]. discriminate. }
      apply ltQ_false in H. rewrite H3, H4, H5, H. reflexivity.
  - intros text Hp Hn. unfold calculateSentiment.
    rewrite sentimentCounts_hits, Hp, Hn. simpl.
    eexists. split; [reflexivity|]. split; reflexivity.
Qed.

Lemma sentiment_score_and_label_witness :
  positiveHits "Good GREAT stuff" = 2
  /\ negativeHits "Good GREAT stuff" = 0
  /\ exists q, calculateSentiment "Good GREAT stuff" = JS.Fin q /\ (q == 1)%Q
               /\ getSentimentAnalysis (calculateSentiment "Good GREAT stuff")
                  = "Very Positive".
Proof.
  split; [reflexivity|]. split; [reflexivity|].
  apply (proj2 (proj2 sentiment_score_and_label) "Good GREAT stuff");
    reflexivity.
Defined.

(** C8, the claim as stated, fails: this text holds two words of the
    positive list and none of the negative list, but each of the two
    carries a punctuation mark, so neither is a hit: the score is 0 and
    the label "Neutral", not 1 and "Very Positive". *)
Lemma sentiment_punctuated_words_are_no_hits :
  listWordsIn positiveWords "Good. Great!" = 2
  /\ listWordsIn negativeWords "Good. Great!" = 0
  /\ positiveHits "Good. Great!" = 0
  /\ negativeHits "Good. Great!" = 0
  /\ calculateSentiment "Good. Great!" = JS.Fin 0
  /\ getSentimentAnalysis (calculateSentiment "Good. Great!") = "Neutral".
Proof. repeat split; vm_compute; reflexivity. Qed.

(** *** Suggestions *)

(** C9. The suggestion list is never empty, and when no structural check
    applies (exactly one H1, no links, at least 300 characters of heading
    text, a screenshot) it is the fixed generic list. *)
Theorem generateSuggestions_nonempty :
  (forall data, generateSuggestions data <> [])
  /\ (forall data,
         h1Count data = 1 ->
         links data = [] ->
         300 <= headingTextLength data ->
         JS.truthyOpt (screenshot data) = true ->
         generateSuggestions data = genericSuggestions).
Proof.
  split.
  - intros data. unfold generateSuggestions. cbv zeta.
    match goal with
    | |- (if List.length ?s =? 0 then _ else _) <> [] =>
        destruct s as [|x rest] eqn:E
    end.
    + discriminate.
    + discriminate.
  - intros data Hone Hlinks Hlong Hshot.
    unfold h1Count, headingTextLength in *.
    unfold generateSuggestions. cbv zeta.
    rewrite Hone, Hlinks, Hshot.
    apply Nat.ltb_ge in Hlong. rewrite Hlong. reflexivity.
Qed.

Lemma generateSuggestions_nonempty_witness :
  h1Count wellFormedPage = 1
  /\ generateSuggestions wellFormedPage = genericSuggestions.
Proof.
  split; [reflexivity|].
  apply (proj2 generateSuggestions_nonempty wellFormedPage).
  - reflexivity.
  - reflexivity.
  - vm_compute. lia.
  - reflexivity.
Defined.

(** *** Readability *)

Lemma divLengths_nonneg (a b : nat) (q : Q) :
  JS.divLengths a b = JS.Fin q -> (0 <= q)%Q.
Proof.
  unfold JS.divLengths. destruct b as [|b]; [destruct a; discriminate|].
  intros H. injection H as <-.
  apply Qle_shift_div_l.
  - unfold Qlt. simpl. lia.
  - rewrite Qmult_0_l. unfold Qle. simpl. lia.
Qed.

(** Outside the texts without a word the score lies between 50 and 100. *)
Lemma readability_range (text : string) :
  match calculateReadabilityScore text with
  | JS.Fin q => (50 <= q /\ q <= 100)%Q
  | JS.PosInf => False
  | JS.NaN => readabilityWords text = []
  end.
Proof.
  unfold calculateReadabilityScore, readabilityWords. cbv zeta.
  remember (JS.filterBoolean (JS.splitPlus JS.isSpace text)) as words.
  remember (JS.filterBoolean (JS.splitPlus isSentenceEnd text)) as sentences.
  destruct (List.length sentences) as [|ns] eqn:Es.
  { simpl. split; unfold Qle; simpl; lia. }
  cbn [Nat.eqb].
  destruct words as [|w ws].
  { reflexivity. }
  remember (w :: ws) as ws' eqn:Ews.
  destruct (JS.divLengths (List.length ws') (S ns)) as [a | | ] eqn:Ea;
    try discriminate.
  destruct (JS.divLengths
              (List.length (filter (fun word => 6 <? String.length word) ws'))
              (List.length ws')) as [b | | ] eqn:Eb;
    try (subst ws'; discriminate).
  apply divLengths_nonneg in Ea. apply divLengths_nonneg in Eb.
  simpl.
  assert (Hscore : (60 <= 60 + a * 2 + b * 100 / 2)%Q).
  { rewrite <- (Qplus_0_r 60) at 1. rewrite <- Qplus_assoc.
    apply Qplus_le_compat; [apply Qle_refl|].
    rewrite <- (Qplus_0_r 0). apply Qplus_le_compat.
    - apply Qmult_le_0_compat; [exact Ea | unfold Qle; simpl; lia].
    - apply Qle_shift_div_l; [reflexivity|]. rewrite Qmult_0_l.
      apply Qmult_le_0_compat; [exact Eb | unfold Qle; simpl; lia]. }
  destruct (JS.ltQ (60 + a * 2 + b * 100 / 2) 100) eqn:Emin.
  - apply ltQ_spec in Emin.
    assert (Hpos : JS.ltQ 0 (60 + a * 2 + b * 100 / 2) = true).
    { apply ltQ_spec. eapply Qlt_le_trans; [|exact Hscore]. reflexivity. }
    unfold JS.mathMax. rewrite Hpos. split.
    + eapply Qle_trans; [|exact Hscore]. unfold Qle; simpl; lia.
    + apply Qlt_le_weak. exact Emin.
  - unfold JS.mathMax.
    replace (JS.ltQ 0 100) with true by reflexivity.
    split; unfold Qle; simpl; lia.
Qed.

(** X26.  The heuristic strategy never reports the level [Easy]. *)
Lemma readability_never_easy (text : string) :
  getReadabilityLevel (calculateReadabilityScore text) <> Easy.
Proof.
  pose proof (readability_range text) as H.
  unfold getReadabilityLevel.
  destruct (calculateReadabilityScore text) as [q | | ]; simpl.
  - destruct H as [Hlow _].
    assert (E : JS.ltQ q 40 = false).
    { apply ltQ_false. eapply Qle_trans; [|exact Hlow]. discriminate. }
    rewrite E. destruct (JS.ltQ q 70); discriminate.
  - discriminate.
  - discriminate.
Qed.

(** C10. For a page whose title is one space and which has neither
    headings nor links, the text handed to the heuristics is three spaces:
    it has one sentence and no word, the long-word percentage is 0/0, and
    the readability score is NaN, which is neither 50 nor at least 60;
    the level reported for it is [Hard]. *)
Theorem readability_of_blank_text_is_NaN :
  allText blankTitlePage = "   "
  /\ List.length (readabilityWords "   ") = 0
  /\ List.length (readabilitySentences "   ") = 1
  /\ calculateReadabilityScore "   " = JS.NaN
  /\ calculateReadabilityScore "" = JS.Fin 50
  /\ getReadabilityLevel (calculateReadabilityScore "   ") = Hard.
Proof. repeat split; vm_compute; reflexivity. Qed.

(* ===================================================================== *)
(** ** Further properties of the issue analyzers *)
(* ===================================================================== *)

(** Evaluates the comparisons of two literal strings in the goal. *)
Ltac eval_literal_eqb :=
  repeat match goal with
         | |- context [String.eqb ?a ?b] =>
             match a with String _ _ => idtac | EmptyString => idtac end;
             match b with String _ _ => idtac | EmptyString => idtac end;
             let v := eval vm_compute in (String.eqb a b) in
             change (String.eqb a b) with v
         end.

(** For a count by an arbitrary type [ty]: splits on which rule, if any,
    has that type; at most one has. *)
Ltac split_on_type ty :=
  cbv zeta;
  repeat rewrite countIssues_pushIf;
  rewrite countIssues_nil;
  unfold hasType;
  cbn [Issue.type];
  repeat match goal with
         | |- context [String.eqb ?a ty] =>
             let E := fresh "E" in
             destruct (String.eqb a ty) eqn:E;
             [apply String.eqb_eq in E; subst ty; eval_literal_eqb |]
         end;
  repeat rewrite Bool.andb_false_r;
  repeat rewrite Bool.andb_true_r;
  repeat match goal with
         | |- context [if ?c then 1 else 0] => destruct c
         end;
  simpl; lia.

(** X1.  Each rule of the Firecrawl analyzer adds at most one issue, and no two
    rules share a type: an issue list never holds two issues of one type,
    however many headings or links offend. *)
Theorem firecrawl_issue_types_unique (d : ScrapedData) (ty : string) :
  countIssues (hasType ty) (Firecrawl.analyzeWebsiteIssues d) <= 1.
Proof. unfold Firecrawl.analyzeWebsiteIssues. split_on_type ty. Qed.

(** X2.  The same for the browser-automation analyzer. *)
Theorem puppeteer_issue_types_unique (d : ScrapedData) (ty : string) :
  countIssues (hasType ty) (Puppeteer.analyzeWebsiteIssues d) <= 1.
Proof. unfold Puppeteer.analyzeWebsiteIssues. split_on_type ty. Qed.

Lemma filter_text_reflag (q : string -> bool) (f : Link.t -> bool)
      (ls : list Link.t) :
  List.length
    (filter (fun l => q (Link.text l))
            (map (fun l => Link.mk (Link.href l) (Link.text l) (f l)) ls))
  = List.length (filter (fun l => q (Link.text l)) ls).
Proof.
  induction ls as [|l ls IH]; simpl; [reflexivity|].
  destruct (q (Link.text l)); simpl; rewrite IH; reflexivity.
Qed.

(** X3.  The Firecrawl analyzer reads no [isBroken] flag: whatever the prober
    found, the issue list is the one of the unprobed document. *)
Theorem firecrawl_analysis_ignores_isBroken (f : Link.t -> bool)
        (d : ScrapedData) :
  Firecrawl.analyzeWebsiteIssues (reflag f d) = Firecrawl.analyzeWebsiteIssues d.
Proof.
  unfold Firecrawl.analyzeWebsiteIssues, reflag. cbv zeta. simpl.
  rewrite (filter_text_reflag
             (fun t => negb (JS.truthy t) || Firecrawl.blank t) f (links d)).
  rewrite (filter_text_reflag
             (fun t => Firecrawl.nonDescriptive (JS.trim t)) f (links d)).
  reflexivity.
Qed.

Lemma skipsAfter_iff (rest : list (option Z)) :
  forall prev,
    Firecrawl.skipsAfter prev rest = true <-> levelSkip (prev :: rest).
Proof.
  induction rest as [|cur rest IH]; intros prev; simpl.
  - split; [discriminate|].
    intros [i [a [b [_ [H _]]]]]. destruct i; discriminate.
  - destruct (Firecrawl.deeperByMoreThanOne cur prev) eqn:E.
    + split; [|reflexivity]. intros _.
      unfold Firecrawl.deeperByMoreThanOne in E.
      destruct cur as [x|], prev as [y|]; try discriminate.
      exists 0, y, x. repeat split. apply Z.ltb_lt. exact E.
    + rewrite IH. split.
      * intros [i [a [b [H1 [H2 H3]]]]]. exists (S i), a, b. auto.
      * intros [i [a [b [H1 [H2 H3]]]]]. destruct i as [|i].
        -- simpl in H1, H2. injection H1 as ->. injection H2 as ->.
           unfold Firecrawl.deeperByMoreThanOne in E.
           apply Z.ltb_ge in E. lia.
        -- exists i, a, b. auto.
Qed.

Lemma skipsLevel_iff (levels : list (option Z)) :
  Firecrawl.skipsLevel levels = true <-> levelSkip levels.
Proof.
  destruct levels as [|first rest]; simpl.
  - split; [discriminate|].
    intros [i [a [b [H _]]]]. destruct i; discriminate.
  - apply skipsAfter_iff.
Qed.

(** X4.  The hierarchy rule of the Firecrawl analyzer fires exactly when some
    heading is more than one level deeper than the heading right before
    it: going shallower by any number of levels, and a first heading of
    any level, raise no issue. *)
Theorem firecrawl_hierarchy_rule (d : ScrapedData) :
  countIssues (hasType "Heading Hierarchy") (Firecrawl.analyzeWebsiteIssues d)
  = 1
  <-> levelSkip (map Heading.level (headings d)).
Proof.
  rewrite <- skipsLevel_iff.
  unfold Firecrawl.analyzeWebsiteIssues. count_rules.
  destruct (Firecrawl.skipsLevel (map Heading.level (headings d)));
    simpl; split; intros H; try reflexivity; discriminate.
Qed.

Lemma pushIf_nil (c : bool) (i : Issue.t) (issues : list Issue.t) :
  pushIf c i issues = [] <-> c = false /\ issues = [].
Proof.
  unfold pushIf. destruct c.
  - split; [|intros [H _]; discriminate].
    intros H. destruct issues; discriminate.
  - split; [auto | intros [_ H]; exact H].
Qed.

Lemma no_match_iff {A : Type} (p : A -> bool) (l : list A) :
  (0 <? List.length (filter p l)) = false <-> Forall (fun x => p x = false) l.
Proof.
  induction l as [|x l IH]; simpl.
  - split; [constructor | reflexivity].
  - destruct (p x) eqn:E; simpl.
    + split; [discriminate|]. intros H. inversion H. congruence.
    + rewrite IH. split; [intros H; constructor; assumption|].
      intros H. inversion H. assumption.
Qed.

Lemma blank_false_truthy (s : string) :
  Firecrawl.blank s = false -> JS.truthy s = true.
Proof. destruct s; [discriminate | reflexivity]. Qed.

(** X5.  The Firecrawl analyzer returns the empty list exactly for a page with
    a non-blank title of 10 to 60 characters, exactly one H1, no level
    skipped going deeper, no blank heading text, and link texts that are
    neither blank nor one of the non-descriptive phrases. *)
Theorem firecrawl_no_issue_iff_clean (d : ScrapedData) :
  Firecrawl.analyzeWebsiteIssues d = [] <-> cleanPage d.
Proof.
  unfold Firecrawl.analyzeWebsiteIssues, cleanPage, h1Count. cbv zeta.
  repeat rewrite pushIf_nil.
  rewrite !no_match_iff, <- skipsLevel_iff.
  unfold Firecrawl.titleText.
  destruct (title d) as [t|]; simpl.
  - split.
    + intros [Hnd [Hel [Heh [Hsk [Hmany [Hzero [Hlong [Hshort [Hmiss _]]]]]]]]].
      apply Bool.orb_false_iff in Hmiss. destruct Hmiss as [Htr Hbl].
      apply Bool.negb_false_iff in Htr. rewrite Htr in Hlong, Hshort.
      simpl in Hlong, Hshort.
      apply Nat.ltb_ge in Hlong, Hshort, Hmany. apply Nat.eqb_neq in Hzero.
      repeat split.
      * exists t. repeat split; assumption.
      * lia.
      * rewrite Hsk. discriminate.
      * exact Heh.
      * apply Forall_forall. intros l Hin.
        rewrite Forall_forall in Hel, Hnd.
        specialize (Hel l Hin). specialize (Hnd l Hin).
        apply Bool.orb_false_iff in Hel. tauto.
    + intros [[t' [Ht [Hbl [Hlo Hhi]]]] [Hone [Hsk [Heh Hl]]]].
      injection Ht as <-.
      pose proof (blank_false_truthy t Hbl) as Htr.
      rewrite Htr, Hbl, Hone. simpl.
      assert (Hshort : (String.length t <? 10) = false)
        by (apply Nat.ltb_ge; lia).
      assert (Hlong : (60 <? String.length t) = false)
        by (apply Nat.ltb_ge; lia).
      rewrite Hshort, Hlong.
      destruct (Firecrawl.skipsLevel (map Heading.level (headings d)));
        [exfalso; apply Hsk; reflexivity|].
      repeat split; try assumption.
      * apply Forall_forall. intros l Hin. rewrite Forall_forall in Hl.
        apply Hl. exact Hin.
      * apply Forall_forall. intros l Hin. rewrite Forall_forall in Hl.
        destruct (Hl l Hin) as [Hb _].
        rewrite (blank_false_truthy _ Hb), Hb. reflexivity.
  - split.
    + intros [_ [_ [_ [_ [_ [_ [_ [_ [Hmiss _]]]]]]]]]. discriminate.
    + intros [[t' [Ht _]] _]. discriminate.
Qed.

(** X6.  A title of white space only is reported twice by the Firecrawl
    analyzer when it is shorter than 10 characters: as missing and as too
    short. *)
Theorem firecrawl_blank_title_reported_twice (d : ScrapedData) (t : string) :
  title d = Some t ->
  t <> EmptyString ->
  Firecrawl.blank t = true ->
  String.length t < 10 ->
  countIssues (hasTypeSeverity "Missing Title" "high")
              (Firecrawl.analyzeWebsiteIssues d) = 1
  /\ countIssues (hasTypeSeverity "Short Title" "medium")
                 (Firecrawl.analyzeWebsiteIssues d) = 1.
Proof.
  intros Ht Hne Hbl Hlen.
  assert (Htr : JS.truthy t = true) by (destruct t; [contradiction|reflexivity]).
  apply Nat.ltb_lt in Hlen.
  unfold Firecrawl.analyzeWebsiteIssues, Firecrawl.titleText.
  rewrite Ht. simpl JS.truthyOpt. rewrite Htr.
  split; count_rules; rewrite ?Hbl, ?Hlen; reflexivity.
Qed.

Lemma firecrawl_blank_title_reported_twice_witness :
  countIssues (hasTypeSeverity "Missing Title" "high")
              (Firecrawl.analyzeWebsiteIssues blankTitlePage) = 1
  /\ countIssues (hasTypeSeverity "Short Title" "medium")
                 (Firecrawl.analyzeWebsiteIssues blankTitlePage) = 1.
Proof.
  apply (firecrawl_blank_title_reported_twice blankTitlePage " ").
  - reflexivity.
  - discriminate.
  - reflexivity.
  - simpl. lia.
Defined.

(* ===================================================================== *)
(** ** Further properties of the heuristic content analyzer *)
(* ===================================================================== *)

(** X22.  The sentiment score of every text is a number between -1 and 1. *)
Theorem sentiment_score_in_range (text : string) :
  exists q, calculateSentiment text = JS.Fin q /\ (- (1) <= q /\ q <= 1)%Q.
Proof.
  unfold calculateSentiment. rewrite sentimentCounts_hits.
  destruct (positiveHits text + negativeHits text =? 0) eqn:E.
  - exists 0%Q. split; [reflexivity|]. split; unfold Qle; simpl; lia.
  - apply Nat.eqb_neq in E. eexists. split; [reflexivity|].
    assert (Hpos : (0 < inject_Z (Z.of_nat (positiveHits text
                                             + negativeHits text)))%Q).
    { unfold Qlt. simpl. lia. }
    split.
    + apply Qle_shift_div_l; [exact Hpos|].
      unfold Qle, Qmult, Qopp, inject_Z. cbn [Qnum Qden Pos.mul]. lia.
    + apply Qle_shift_div_r; [exact Hpos|].
      unfold Qle, Qmult, inject_Z. cbn [Qnum Qden Pos.mul]. lia.
Qed.

(** X23.  A text with as many positive as negative hits, a text without any hit
    included, is labelled "Neutral". *)
Theorem balanced_text_is_neutral (text : string) :
  positiveHits text = negativeHits text ->
  getSentimentAnalysis (calculateSentiment text) = "Neutral".
Proof.
  intros Heq. unfold calculateSentiment.
  rewrite sentimentCounts_hits, Heq.
  destruct (negativeHits text + negativeHits text =? 0); [reflexivity|].
  rewrite Z.sub_diag.
  set (q := (inject_Z 0
             / inject_Z (Z.of_nat (negativeHits text + negativeHits text)))%Q).
  assert (Hq : (q == 0)%Q) by (unfold q, Qdiv; apply Qmult_0_l).
  unfold getSentimentAnalysis, JS.numGt.
  assert (H1 : JS.ltQ (3 # 10) q = false).
  { apply ltQ_false. rewrite Hq. unfold Qle; simpl; lia. }
  assert (H2 : JS.ltQ (1 # 10) q = false).
  { apply ltQ_false. rewrite Hq. unfold Qle; simpl; lia. }
  assert (H3 : JS.ltQ (- 1 # 10) q = true).
  { apply ltQ_spec. rewrite Hq. reflexivity. }
  rewrite H1, H2, H3. reflexivity.
Qed.

Lemma balanced_text_is_neutral_witness :
  getSentimentAnalysis (calculateSentiment "good news, bad news") = "Neutral".
Proof.
  apply (balanced_text_is_neutral "good news, bad news"). reflexivity.
Defined.

Lemma toLowerChar_idempotent (c : ascii) :
  JS.toLowerChar (JS.toLowerChar c) = JS.toLowerChar c.
Proof. destruct c as [[] [] [] [] [] [] [] []]; reflexivity. Qed.

Lemma toLowerCase_idempotent (s : string) :
  JS.toLowerCase (JS.toLowerCase s) = JS.toLowerCase s.
Proof.
  induction s as [|c s IH]; simpl; [reflexivity|].
  rewrite toLowerChar_idempotent, IH. reflexivity.
Qed.

(** X24.  The sentiment score does not depend on the letter case of the text. *)
Theorem sentiment_ignores_case (text : string) :
  calculateSentiment (JS.toLowerCase text) = calculateSentiment text.
Proof.
  unfold calculateSentiment, sentimentCounts.
  rewrite toLowerCase_idempotent. reflexivity.
Qed.

(** X25.  The readability score is NaN exactly for the texts that have a
    sentence and no word, that is, the non-empty texts of white space
    only; for every other text it is a number from 50 to 100. *)
Theorem readability_NaN_iff_no_word (text : string) :
  (calculateReadabilityScore text = JS.NaN
   <-> readabilityWords text = [] /\ readabilitySentences text <> [])
  /\ (calculateReadabilityScore text <> JS.NaN ->
      exists q, calculateReadabilityScore text = JS.Fin q
                /\ (50 <= q /\ q <= 100)%Q).
Proof.
  pose proof (readability_range text) as Hrange. split.
  - split.
    + intros HN. rewrite HN in Hrange. split; [exact Hrange|].
      intros Hs. unfold calculateReadabilityScore in HN.
      unfold readabilitySentences in Hs. rewrite Hs in HN. discriminate.
    + intros [Hw Hs]. unfold calculateReadabilityScore.
      unfold readabilityWords in Hw. unfold readabilitySentences in Hs.
      rewrite Hw. cbv zeta.
      destruct (JS.filterBoolean (JS.splitPlus isSentenceEnd text));
        [contradiction|]. reflexivity.
  - intros Hnot. destruct (calculateReadabilityScore text) as [q | | ].
    + exists q. split; [reflexivity | exact Hrange].
    + contradiction.
    + contradiction.
Qed.

Lemma readability_NaN_iff_no_word_witness :
  exists q, calculateReadabilityScore "Hello world. This is wonderful!"
            = JS.Fin q
            /\ (50 <= q /\ q <= 100)%Q.
Proof.
  apply (proj2 (readability_NaN_iff_no_word
                  "Hello world. This is wonderful!")).
  discriminate.
Defined.

(** X27.  The generic suggestions are returned only for a page that passes all
    four checks, and no page gets more than four suggestions. *)
Theorem generateSuggestions_generic_only_when_clean (data : ScrapedData) :
  (generateSuggestions data = genericSuggestions ->
   h1Count data = 1
   /\ links data = []
   /\ 300 <= headingTextLength data
   /\ JS.truthyOpt (screenshot data) = true)
  /\ List.length (generateSuggestions data) <= 4.
Proof.
  unfold generateSuggestions, genericSuggestions, h1Count, headingTextLength,
    pushTo.
  cbv zeta.
  destruct (List.length (filter (levelIs 1) (headings data))) as [|[|n]] eqn:Eh;
    destruct (links data) as [|l ls] eqn:El;
    destruct (fold_left (fun acc h => acc + String.length (Heading.text h))
                        (headings data) 0 <? 300) eqn:Et;
    destruct (JS.truthyOpt (screenshot data)) eqn:Es;
    simpl; (split; [try discriminate | lia]).
  intros _. apply Nat.ltb_ge in Et. repeat split. exact Et.
Qed.

Lemma generateSuggestions_generic_only_when_clean_witness :
  h1Count wellFormedPage = 1
  /\ links wellFormedPage = []
  /\ 300 <= headingTextLength wellFormedPage
  /\ JS.truthyOpt (screenshot wellFormedPage) = true.
Proof.
  apply (proj1 (generateSuggestions_generic_only_when_clean wellFormedPage)).
  reflexivity.
Defined.

Lemma firstn_nonempty {A : Type} (l l' : list A) :
  firstn 3 l = firstn 3 l' ->
  (0 <? List.length l) = (0 <? List.length l').
Proof. destruct l, l'; simpl; intros H; try reflexivity; discriminate. Qed.

(** X28.  The summary depends on the headings only through the texts of the H1
    headings and of the first three H2 headings: deeper headings and
    further H2 headings never show in it. *)
Theorem generateSummary_reads_h1_and_three_h2 (title : string)
        (hs hs' : list Heading.t) :
  textsOfLevel 1 hs = textsOfLevel 1 hs' ->
  firstn 3 (textsOfLevel 2 hs) = firstn 3 (textsOfLevel 2 hs') ->
  generateSummary title hs = generateSummary title hs'.
Proof.
  unfold textsOfLevel, generateSummary, firstThree. intros H1 H2. cbv zeta.
  rewrite H1, H2, (firstn_nonempty _ _ H2). reflexivity.
Qed.

Lemma generateSummary_reads_h1_and_three_h2_witness :
  generateSummary "Guide"
    [Heading.mk "h1" "Intro" (Some 1%Z); Heading.mk "h2" "A" (Some 2%Z);
     Heading.mk "h2" "B" (Some 2%Z); Heading.mk "h2" "C" (Some 2%Z)]
  = generateSummary "Guide"
      [Heading.mk "h1" "Intro" (Some 1%Z); Heading.mk "h2" "A" (Some 2%Z);
       Heading.mk "h3" "deep" (Some 3%Z); Heading.mk "h2" "B" (Some 2%Z);
       Heading.mk "h2" "C" (Some 2%Z); Heading.mk "h2" "D" (Some 2%Z)].
Proof.
  apply generateSummary_reads_h1_and_three_h2; reflexivity.
Defined.

Lemma allChars_snoc (q : ascii -> bool) (s : string) (c : ascii) :
  allChars q (s ++ String c EmptyString) = allChars q s && q c.
Proof.
  induction s as [|a s IH]; simpl.
  - rewrite Bool.andb_true_r. reflexivity.
  - rewrite IH, Bool.andb_assoc. reflexivity.
Qed.

(** The pieces of a split hold no separator: each of their characters is
    a character of the text that is not one. *)
Lemma splitAux_chars (sep q : ascii -> bool) (s : string) :
  forall inSep cur,
    allChars q cur = true ->
    allChars (fun c => sep c || q c) s = true ->
    Forall (fun w => allChars q w = true) (JS.splitAux sep inSep cur s).
Proof.
  induction s as [|c s IH]; intros inSep cur Hcur Hs; simpl.
  - constructor; [exact Hcur | constructor].
  - simpl in Hs. apply Bool.andb_true_iff in Hs. destruct Hs as [Hc Hs].
    destruct (sep c) eqn:Esep.
    + destruct inSep.
      * apply IH; [reflexivity | exact Hs].
      * constructor; [exact Hcur|]. apply IH; [reflexivity | exact Hs].
    + simpl in Hc. apply IH; [|exact Hs].
      rewrite allChars_snoc, Hcur, Hc. reflexivity.
Qed.

Lemma lowered_word_char (c : ascii) :
  JS.isWordChar (JS.toLowerChar c) || JS.isSpace (JS.toLowerChar c) = true ->
  JS.isSpace (JS.toLowerChar c) || isKeywordChar (JS.toLowerChar c) = true.
Proof.
  destruct c as [[] [] [] [] [] [] [] []]; vm_compute; intros H;
    first [reflexivity | discriminate H].
Qed.

Lemma cleaned_text_chars (text : string) :
  allChars (fun c => JS.isSpace c || isKeywordChar c)
           (JS.keepChars (fun c => JS.isWordChar c || JS.isSpace c)
                         (JS.toLowerCase text)) = true.
Proof.
  induction text as [|c text IH]; simpl; [reflexivity|].
  destruct (JS.isWordChar (JS.toLowerChar c) || JS.isSpace (JS.toLowerChar c))
    eqn:E; [|exact IH].
  simpl. rewrite (lowered_word_char c E), IH. reflexivity.
Qed.

(** X29.  Every word counted by [calculateKeywordDensity], hence every key of
    [keywordDensity] and every top keyword, has at least three characters,
    is no stop word, and consists of lower-case ASCII letters, digits and
    underscores only: punctuation and upper case never reach a key. *)
Theorem keywordWords_are_clean (text : string) :
  Forall (fun word =>
            3 <= String.length word
            /\ JS.includes stopWords word = false
            /\ allChars isKeywordChar word = true)
         (keywordWords text).
Proof.
  unfold keywordWords. apply Forall_forall. intros word Hin.
  apply filter_In in Hin. destruct Hin as [Hin Hkeep].
  apply Bool.andb_true_iff in Hkeep. destruct Hkeep as [Hlen Hstop].
  apply Nat.ltb_lt in Hlen. apply Bool.negb_true_iff in Hstop.
  repeat split; [lia | exact Hstop |].
  pose proof (splitAux_chars JS.isSpace isKeywordChar _ false EmptyString
                eq_refl (cleaned_text_chars text)) as Hall.
  rewrite Forall_forall in Hall. apply Hall. exact Hin.
Qed.

(* ===================================================================== *)
(** ** Further properties of the extractor and of [scrapeWebsite] *)
(* ===================================================================== *)

Section ExtractorFacts.
Variable newURL : string -> option Firecrawl.URL.t.

(** X12.  On a base URL that [isValidUrl] accepts, [extractLinks] never throws,
    whatever the HTML: [scrapeWebsite] validates the URL with the same
    parser before it extracts. *)
Theorem extractLinks_returns_on_valid_base (html baseUrl : string) :
  Utils.isValidUrl newURL baseUrl = true ->
  exists links, Firecrawl.extractLinks newURL html baseUrl = JS.Normal links.
Proof.
  unfold Utils.isValidUrl, Firecrawl.extractLinks. intros Hvalid.
  destruct (newURL baseUrl) as [b|] eqn:Eb; [|discriminate].
  generalize (@nil Anchor.t).
  induction (JS.execAll Firecrawl.linkRegex 0 html) as [|m ms IH];
    intros acc; simpl.
  - eexists. reflexivity.
  - unfold Firecrawl.resolveHref. rewrite Eb.
    destruct (JS.startsWith (JS.capture 1 m) "/");
      [|destruct (JS.startsWith (JS.capture 1 m) "./")];
      match goal with
      | |- context [if ?c then _ else _] => destruct c
      end; apply IH.
Qed.

(** X13.  An href that begins neither with a slash, nor with [./], nor with
    [http] adds no link: [mailto:] and [javascript:] links, fragments and
    relative paths such as [page.html] or [../up] are dropped, not
    resolved. *)
Theorem extractLinks_drops_unresolved (baseUrl : string) (m : JS.captures)
        (acc : list Anchor.t) :
  JS.startsWith (JS.capture 1 m) "/" = false ->
  JS.startsWith (JS.capture 1 m) "./" = false ->
  JS.startsWith (JS.capture 1 m) "http" = false ->
  Firecrawl.extractLinksFrom newURL baseUrl [m] acc = JS.Normal acc.
Proof.
  intros H1 H2 H3. simpl. unfold Firecrawl.resolveHref.
  rewrite H1, H2, H3. reflexivity.
Qed.
End ExtractorFacts.

Lemma extractLinks_returns_on_valid_base_witness :
  exists links,
    Firecrawl.extractLinks sampleNewURL "<a href='/about'>About</a>" sampleBase
    = JS.Normal links.
Proof.
  apply (extractLinks_returns_on_valid_base sampleNewURL). reflexivity.
Defined.

Lemma extractLinks_drops_unresolved_witness :
  Firecrawl.extractLinksFrom sampleNewURL sampleBase
    [JS.setCapture 2 "next page" (JS.setCapture 1 "page2.html" JS.noCaptures)]
    []
  = JS.Normal [].
Proof.
  apply (extractLinks_drops_unresolved sampleNewURL sampleBase); reflexivity.
Defined.

Lemma extractLinks_href_prefix_witness :
  Forall (fun a => JS.startsWith (Anchor.href a) "http" = true)
         [Anchor.mk "https://x.com/about" "About"].
Proof.
  apply (extractLinks_href_prefix sampleNewURL sampleBase
           "<a href='/about'>About</a>").
  reflexivity.
Defined.

Lemma reportedError_truthy (message : string) :
  JS.truthy (FirecrawlScrape.reportedError message) = true.
Proof.
  unfold FirecrawlScrape.reportedError.
  repeat match goal with
         | |- context [if ?c then _ else _] => destruct c eqn:?
         end; try reflexivity; assumption.
Qed.

Section ScrapeFacts.
Variable newURL : string -> option Firecrawl.URL.t.
Variable apiKey : option string.
Variable scrapeUrl : string -> JS.Promise FirecrawlScrape.ScrapeResult.

Let scrape := FirecrawlScrape.scrapeWebsite newURL apiKey scrapeUrl.

Lemma fromPayload_shape (url : string) (data : FirecrawlScrape.Payload.t) :
  FirecrawlScrape.Scraped.url (FirecrawlScrape.fromPayload newURL url data)
  = url
  /\ (FirecrawlScrape.Scraped.error
        (FirecrawlScrape.fromPayload newURL url data) <> None ->
      exists message,
        FirecrawlScrape.fromPayload newURL url data
        = FirecrawlScrape.failed url message)
  /\ (FirecrawlScrape.Scraped.error
        (FirecrawlScrape.fromPayload newURL url data) = None ->
      exists html,
        FirecrawlScrape.Scraped.headings
          (FirecrawlScrape.fromPayload newURL url data)
        = Firecrawl.extractHeadings html
        /\ Firecrawl.extractLinks newURL html url
           = JS.Normal (FirecrawlScrape.Scraped.links
                          (FirecrawlScrape.fromPayload newURL url data))).
Proof.
  unfold FirecrawlScrape.fromPayload. cbv zeta.
  match goal with
  | |- context [Firecrawl.extractLinks newURL ?h url] =>
      set (html := h); destruct (Firecrawl.extractLinks newURL html url)
        as [links|message] eqn:E
  end; simpl.
  - repeat split.
    + intros H. contradiction.
    + intros _. exists html. split; [reflexivity | exact E].
  - repeat split.
    + intros _. exists message. reflexivity.
    + discriminate.
Qed.

(** Every path of [scrapeWebsite] ends in the [catch] block or in the
    statements that read the payload. *)
Lemma scrapeWebsite_cases (url : string) :
  (exists message, scrape url = FirecrawlScrape.failed url message)
  \/ (exists data, scrape url = FirecrawlScrape.fromPayload newURL url data).
Proof.
  unfold scrape, FirecrawlScrape.scrapeWebsite.
  destruct (negb (Utils.isValidUrl newURL url)); [left; eexists; reflexivity|].
  destruct (negb (JS.truthyOpt apiKey)); [left; eexists; reflexivity|].
  destruct (scrapeUrl url) as [[body | success error data own] | message];
    [| |left; eexists; reflexivity].
  - destruct (JS.includesStr body "<html"); left; eexists; reflexivity.
  - destruct success as [[|]|]; try (left; eexists; reflexivity);
      (destruct data as [d|]; [right; eexists; reflexivity|]);
      match goal with
      | |- context [if ?c then _ else _] => destruct c
      end; first [right; eexists; reflexivity | left; eexists; reflexivity].
Qed.

(** X14.  Whatever the backend answers, [scrapeWebsite] returns a record for
    the requested URL that either carries an error, and then no title, no
    heading, no link and no screenshot, or carries none, and then holds
    the headings and links the extractor finds in one HTML text. *)
Theorem scrapeWebsite_error_or_content (url : string) :
  FirecrawlScrape.Scraped.url (scrape url) = url
  /\ (FirecrawlScrape.Scraped.error (scrape url) <> None ->
      FirecrawlScrape.Scraped.title (scrape url) = None
      /\ FirecrawlScrape.Scraped.headings (scrape url) = []
      /\ FirecrawlScrape.Scraped.links (scrape url) = []
      /\ FirecrawlScrape.Scraped.screenshot (scrape url) = None)
  /\ (FirecrawlScrape.Scraped.error (scrape url) = None ->
      exists html,
        FirecrawlScrape.Scraped.headings (scrape url)
        = Firecrawl.extractHeadings html
        /\ Firecrawl.extractLinks newURL html url
           = JS.Normal (FirecrawlScrape.Scraped.links (scrape url))).
Proof.
  destruct (scrapeWebsite_cases url) as [[message ->] | [data ->]].
  - simpl. repeat split. discriminate.
  - destruct (fromPayload_shape url data) as [Hu [He Hc]].
    split; [exact Hu|]. split; [|exact Hc].
    intros Herr. destruct (He Herr) as [message ->]. simpl. repeat split.
Qed.

(** X15.  The errors [scrapeWebsite] reports for the failures it raises itself:
    an invalid URL and an unexpected response shape keep their messages; a
    missing API key is reported by its raw message, not as "Invalid or
    missing Firecrawl API key"; an HTML error page is reported as an
    invalid or missing API key; the 28 second timer is reported as a
    timed-out request. *)
Theorem scrapeWebsite_reported_errors (url : string) :
  (Utils.isValidUrl newURL url = false ->
   FirecrawlScrape.Scraped.error (scrape url) = Some "Invalid URL format")
  /\ (Utils.isValidUrl newURL url = true ->
      JS.truthyOpt apiKey = false ->
      FirecrawlScrape.Scraped.error (scrape url)
      = Some "FIRECRAWL_API_KEY environment variable is not set")
  /\ (Utils.isValidUrl newURL url = true ->
      JS.truthyOpt apiKey = true ->
      (forall body,
          scrapeUrl url = JS.Fulfilled (FirecrawlScrape.Text body) ->
          JS.includesStr body "<html" = true ->
          FirecrawlScrape.Scraped.error (scrape url)
          = Some "Invalid or missing Firecrawl API key")
      /\ (forall body,
             scrapeUrl url = JS.Fulfilled (FirecrawlScrape.Text body) ->
             JS.includesStr body "<html" = false ->
             FirecrawlScrape.Scraped.error (scrape url)
             = Some "Unexpected response format from Firecrawl")
      /\ (scrapeUrl url = JS.Rejected FirecrawlScrape.timeoutMessage ->
          FirecrawlScrape.Scraped.error (scrape url)
          = Some "Request timed out - website may be slow or unavailable")).
Proof.
  unfold scrape, FirecrawlScrape.scrapeWebsite. split; [|split].
  - intros ->. reflexivity.
  - intros -> ->. reflexivity.
  - intros -> ->. simpl. split; [|split].
    + intros body -> ->. reflexivity.
    + intros body -> ->. reflexivity.
    + intros ->. reflexivity.
Qed.
End ScrapeFacts.

Lemma scrapeWebsite_reported_errors_witness :
  FirecrawlScrape.Scraped.error
    (FirecrawlScrape.scrapeWebsite sampleNewURL None
       (fun _ => JS.Rejected EmptyString) sampleBase)
  = Some "FIRECRAWL_API_KEY environment variable is not set".
Proof.
  apply (proj1 (proj2 (scrapeWebsite_reported_errors sampleNewURL None
                         (fun _ => JS.Rejected EmptyString) sampleBase)));
    reflexivity.
Defined.

Lemma scrapeWebsite_error_or_content_witness :
  FirecrawlScrape.Scraped.title
    (FirecrawlScrape.scrapeWebsite sampleNewURL None
       (fun _ => JS.Rejected EmptyString) sampleBase) = None
  /\ FirecrawlScrape.Scraped.headings
       (FirecrawlScrape.scrapeWebsite sampleNewURL None
          (fun _ => JS.Rejected EmptyString) sampleBase) = []
  /\ FirecrawlScrape.Scraped.links
       (FirecrawlScrape.scrapeWebsite sampleNewURL None
          (fun _ => JS.Rejected EmptyString) sampleBase) = []
  /\ FirecrawlScrape.Scraped.screenshot
       (FirecrawlScrape.scrapeWebsite sampleNewURL None
          (fun _ => JS.Rejected EmptyString) sampleBase) = None.
Proof.
  apply (proj1 (proj2 (scrapeWebsite_error_or_content sampleNewURL None
                         (fun _ => JS.Rejected EmptyString) sampleBase))).
  discriminate.
Defined.

(* ===================================================================== *)
(** ** The scrape route *)
(* ===================================================================== *)

Lemma getProperty_setProperty_same (key : string) (value : bool)
      (obj : Route.object) :
  Route.getProperty key (Route.setProperty key value obj) = Some value.
Proof.
  induction obj as [|[k v] obj IH]; simpl.
  - rewrite String.eqb_refl. reflexivity.
  - destruct (String.eqb k key) eqn:E; simpl; rewrite E; [reflexivity | exact IH].
Qed.

Lemma getProperty_setProperty_other (key key' : string) (value : bool)
      (obj : Route.object) :
  key <> key' ->
  Route.getProperty key' (Route.setProperty key value obj)
  = Route.getProperty key' obj.
Proof.
  intros Hne. induction obj as [|[k v] obj IH]; simpl.
  - destruct (String.eqb key key') eqn:E; [|reflexivity].
    apply String.eqb_eq in E. contradiction.
  - destruct (String.eqb k key) eqn:E; simpl.
    + apply String.eqb_eq in E. subst k.
      destruct (String.eqb key key') eqn:E'; [|reflexivity].
      apply String.eqb_eq in E'. contradiction.
    + rewrite IH. reflexivity.
Qed.

Lemma find_app {A : Type} (p : A -> bool) (l1 l2 : list A) :
  find p (l1 ++ l2)
  = match find p l1 with
    | Some x => Some x
    | None => find p l2
    end.
Proof.
  induction l1 as [|x l1 IH]; simpl; [reflexivity|].
  destruct (p x); [reflexivity | exact IH].
Qed.

(** The object built from the outcomes holds, for a URL, the flag of the
    last outcome recorded for it. *)
Lemma brokenLinksMap_lookup (outcomes : list Firecrawl.LinkStatus.t)
      (key : string) :
  forall obj : Route.object,
    Route.getProperty key
      (fold_left (fun acc r =>
                    Route.setProperty (Firecrawl.LinkStatus.url r)
                                      (Firecrawl.LinkStatus.isBroken r) acc)
                 outcomes obj)
    = match find (fun r => String.eqb (Firecrawl.LinkStatus.url r) key)
                 (rev outcomes) with
      | Some r => Some (Firecrawl.LinkStatus.isBroken r)
      | None => Route.getProperty key obj
      end.
Proof.
  induction outcomes as [|r outcomes IH]; intros obj; simpl; [reflexivity|].
  rewrite IH, find_app.
  destruct (find (fun r0 => String.eqb (Firecrawl.LinkStatus.url r0) key)
                 (rev outcomes)); [reflexivity|].
  simpl. destruct (String.eqb (Firecrawl.LinkStatus.url r) key) eqn:E.
  - apply String.eqb_eq in E. subst key. apply getProperty_setProperty_same.
  - apply String.eqb_neq in E. apply getProperty_setProperty_other. exact E.
Qed.

Lemma enhanceLinks_lastFlag (links : list Anchor.t)
      (outcomes : list Firecrawl.LinkStatus.t) :
  Route.enhanceLinks links (Route.brokenLinksMap outcomes)
  = map (fun a => Link.mk (Anchor.href a) (Anchor.text a)
                          (lastFlag outcomes (Anchor.href a)))
        links.
Proof.
  unfold Route.enhanceLinks, Route.brokenLinksMap, lastFlag.
  apply map_ext. intros a. rewrite brokenLinksMap_lookup. simpl.
  destruct (find (fun r => String.eqb (Firecrawl.LinkStatus.url r)
                                      (Anchor.href a))
                 (rev outcomes)); reflexivity.
Qed.

Section RequestProberFacts.
Variable fetchAt : nat -> string -> JS.Promise Z.

Lemma promiseAll_probeFrom (batch : list string) :
  forall i,
    JS.promiseAll (Firecrawl.probeFrom fetchAt i batch)
    = JS.Fulfilled (requestOutcomes fetchAt i batch).
Proof.
  induction batch as [|url batch IH]; intros i; simpl; [reflexivity|].
  unfold Firecrawl.probeAt at 1, requestOutcome at 1.
  destruct (fetchAt i url); rewrite IH; reflexivity.
Qed.

Lemma requestOutcomes_app (l1 l2 : list string) :
  forall i,
    requestOutcomes fetchAt i (l1 ++ l2)
    = requestOutcomes fetchAt i l1
      ++ requestOutcomes fetchAt (i + List.length l1) l2.
Proof.
  induction l1 as [|url l1 IH]; intros i; simpl.
  - rewrite Nat.add_0_r. reflexivity.
  - rewrite IH. replace (S i + List.length l1) with (i + S (List.length l1))
      by lia. reflexivity.
Qed.

Lemma requestOutcomes_urls (links : list string) :
  forall i,
    map Firecrawl.LinkStatus.url (requestOutcomes fetchAt i links) = links.
Proof.
  induction links as [|url links IH]; intros i; simpl; [reflexivity|].
  rewrite IH. reflexivity.
Qed.

Lemma requestOutcomes_batch (l : list string) (i : nat) :
  requestOutcomes fetchAt i (JS.slice l i (i + Firecrawl.batchSize))
  ++ requestOutcomes fetchAt (i + Firecrawl.batchSize)
                     (skipn (i + Firecrawl.batchSize) l)
  = requestOutcomes fetchAt i (skipn i l).
Proof.
  rewrite <- (slice_batch l i Firecrawl.batchSize) at 1.
  rewrite requestOutcomes_app. f_equal.
  destruct (le_lt_dec (List.length l) (i + Firecrawl.batchSize))
    as [Hshort|Hlong].
  - rewrite !skipn_all2 by exact Hshort. reflexivity.
  - f_equal. unfold JS.slice.
    rewrite length_firstn, length_skipn. lia.
Qed.

Lemma probeBatchesAt_outcomes (links : list string) (i : nat)
      (results : list Firecrawl.LinkStatus.t) :
  Firecrawl.probeBatchesAt fetchAt links i results
  = JS.Fulfilled (results ++ requestOutcomes fetchAt i (skipn i links)).
Proof.
  funelim (Firecrawl.probeBatchesAt fetchAt links i results).
  - rewrite skipn_all2 by lia. rewrite app_nil_r. reflexivity.
  - match goal with
    | Hall : JS.promiseAll _ = JS.Fulfilled _ |- _ =>
        rewrite promiseAll_probeFrom in Hall; injection Hall as <-
    end.
    match goal with
    | IH : Firecrawl.probeBatchesAt _ _ _ _ = JS.Fulfilled _ |- _ =>
        rewrite IH
    end.
    rewrite <- app_assoc, requestOutcomes_batch. reflexivity.
  - match goal with
    | Hall : JS.promiseAll _ = JS.Rejected _ |- _ =>
        rewrite promiseAll_probeFrom in Hall; discriminate
    end.
Qed.

(** A link that does not occur again later in the list has, as its last
    outcome, the outcome of its own request. *)
Lemma lastFlag_own_request (hrefs : list string) :
  forall k i h,
    nth_error hrefs i = Some h ->
    (forall j, i < j -> nth_error hrefs j <> Some h) ->
    lastFlag (requestOutcomes fetchAt k hrefs) h
    = Firecrawl.LinkStatus.isBroken (requestOutcome fetchAt (k + i) h).
Proof.
  induction hrefs as [|u hrefs IH]; intros k i h Hi Hlast.
  - destruct i; discriminate.
  - unfold lastFlag. simpl requestOutcomes. simpl rev. rewrite find_app.
    destruct i as [|i].
    + simpl in Hi. injection Hi as ->.
      destruct (find (fun r => String.eqb (Firecrawl.LinkStatus.url r) h)
                     (rev (requestOutcomes fetchAt (S k) hrefs)))
        as [r|] eqn:Ef.
      * exfalso. apply find_some in Ef. destruct Ef as [Hin Heq].
        apply in_rev in Hin. apply String.eqb_eq in Heq.
        apply (in_map Firecrawl.LinkStatus.url) in Hin.
        rewrite requestOutcomes_urls, Heq in Hin.
        apply In_nth_error in Hin. destruct Hin as [j Hj].
        apply (Hlast (S j)); [lia | exact Hj].
      * simpl. rewrite String.eqb_refl, Nat.add_0_r. reflexivity.
    + simpl in Hi.
      assert (Hlast' : forall j, i < j -> nth_error hrefs j <> Some h).
      { intros j Hj. apply (Hlast (S j)). lia. }
      specialize (IH (S k) i h Hi Hlast'). unfold lastFlag in IH.
      destruct (find (fun r => String.eqb (Firecrawl.LinkStatus.url r) h)
                     (rev (requestOutcomes fetchAt (S k) hrefs)))
        as [r|] eqn:Ef.
      * rewrite IH. replace (S k + i) with (k + S i) by lia. reflexivity.
      * exfalso.
        assert (Hin : In h hrefs) by (eapply nth_error_In; exact Hi).
        rewrite <- (requestOutcomes_urls hrefs (S k)) in Hin.
        apply in_map_iff in Hin. destruct Hin as [r [Hr Hin]].
        apply in_rev in Hin.
        pose proof (find_none _ _ Ef r Hin) as Hno. simpl in Hno.
        rewrite Hr, String.eqb_refl in Hno. discriminate.
Qed.
End RequestProberFacts.

(** With requests that depend on the URL only, the prober by request is
    the prober of one outcome per URL. *)
Lemma checkBrokenLinksAt_by_url (fetch : string -> JS.Promise Z)
      (links : list string) :
  Firecrawl.checkBrokenLinksAt (fun _ => fetch) links
  = Firecrawl.checkBrokenLinks fetch links.
Proof.
  unfold Firecrawl.checkBrokenLinksAt, Firecrawl.checkBrokenLinks.
  rewrite probeBatchesAt_outcomes, probeBatches_outcomes. simpl.
  f_equal. generalize 0.
  induction links as [|url links IH]; intros n; simpl; [reflexivity|].
  rewrite IH. reflexivity.
Qed.

Lemma extracted_link_texts_not_blank
      (newURL : string -> option Firecrawl.URL.t) (html baseUrl : string)
      (links : list Anchor.t) :
  Firecrawl.extractLinks newURL html baseUrl = JS.Normal links ->
  Forall (fun a => Firecrawl.blank (Anchor.text a) = false) links.
Proof.
  intros H. apply extractLinksFrom_acc in H. subst links. simpl.
  apply Forall_forall. intros a Hin. apply in_flat_map in Hin.
  destruct Hin as [m [_ Hin]]. apply anchorEntry_sound in Hin.
  destruct Hin as [_ [Htext Hne]].
  unfold Firecrawl.blank. rewrite Htext in *.
  unfold Firecrawl.visibleText in *. rewrite trim_idempotent.
  destruct (JS.trim (JS.removeAll Firecrawl.tagRegex 0 (JS.capture 2 m)));
    [contradiction | reflexivity].
Qed.

Lemma enhanced_links_not_blank (g : Anchor.t -> bool) (links : list Anchor.t) :
  Forall (fun a => Firecrawl.blank (Anchor.text a) = false) links ->
  filter (fun l => negb (JS.truthy (Link.text l)) || Firecrawl.blank (Link.text l))
         (map (fun a => Link.mk (Anchor.href a) (Anchor.text a) (g a)) links)
  = [].
Proof.
  induction links as [|a links IH]; intros H; [reflexivity|].
  inversion H as [|? ? Ha Hrest]. simpl.
  rewrite Ha, (blank_false_truthy _ Ha). simpl. apply IH. exact Hrest.
Qed.

Lemma scrapeWebsite_error_truthy
      (newURL : string -> option Firecrawl.URL.t) (apiKey : option string)
      (scrapeUrl : string -> JS.Promise FirecrawlScrape.ScrapeResult)
      (url : string) :
  JS.truthyOpt
    (FirecrawlScrape.Scraped.error
       (FirecrawlScrape.scrapeWebsite newURL apiKey scrapeUrl url))
  = match FirecrawlScrape.Scraped.error
            (FirecrawlScrape.scrapeWebsite newURL apiKey scrapeUrl url) with
    | Some _ => true
    | None => false
    end.
Proof.
  destruct (scrapeWebsite_cases newURL apiKey scrapeUrl url)
    as [[message ->] | [data ->]].
  - simpl. apply reportedError_truthy.
  - destruct (fromPayload_shape newURL url data) as [_ [He _]].
    destruct (FirecrawlScrape.Scraped.error
                (FirecrawlScrape.fromPayload newURL url data)) as [e|] eqn:E;
      [|reflexivity].
    destruct (He ltac:(discriminate)) as [message Hm].
    rewrite Hm in E. simpl in E. injection E as <-.
    simpl. apply reportedError_truthy.
Qed.

Section RouteFacts.
Variable newURL : string -> option Firecrawl.URL.t.
Variable apiKey : option string.
Variable scrapeUrl : string -> JS.Promise FirecrawlScrape.ScrapeResult.
Variable fetchAt : nat -> string -> JS.Promise Z.

(** X16.  The scrape route for a request that does not ask to save, from
    the scraped data to the response, every link having a request of its
    own.  A failed scrape gives status 500 with its error and no link is
    probed.  Otherwise the status is 200; the links of the response are
    the extracted links in their order, each flagged with the last
    outcome recorded for its href: a link whose href does not occur again
    later carries the outcome of its own request, and an earlier link
    with the same href carries that outcome too, not its own.  The issue
    list holds no issue of the types "Empty Headings", "Empty Links" and
    "Broken Links": the extractor never hands the analyzer a blank
    heading or link text, and the analyzer never reads the outcomes. *)
Theorem route_response (url : string) :
  let scraped := FirecrawlScrape.scrapeWebsite newURL apiKey scrapeUrl url in
  let hrefs := map Anchor.href (FirecrawlScrape.Scraped.links scraped) in
  let outcomes := requestOutcomes fetchAt 0 hrefs in
  match Route.respond fetchAt scraped with
  | (status, Route.ErrorBody e) =>
      status = 500%Z /\ FirecrawlScrape.Scraped.error scraped = Some e
  | (status, Route.ResultBody u _ hs ls _ issues) =>
      status = 200%Z
      /\ FirecrawlScrape.Scraped.error scraped = None
      /\ u = url
      /\ hs = FirecrawlScrape.Scraped.headings scraped
      /\ ls = map (fun a =>
                     Link.mk (Anchor.href a) (Anchor.text a)
                             (lastFlag outcomes (Anchor.href a)))
                  (FirecrawlScrape.Scraped.links scraped)
      /\ (forall i a,
             nth_error (FirecrawlScrape.Scraped.links scraped) i = Some a ->
             (forall j, i < j -> nth_error hrefs j <> Some (Anchor.href a)) ->
             nth_error ls i
             = Some (Link.mk (Anchor.href a) (Anchor.text a)
                             (Firecrawl.LinkStatus.isBroken
                                (requestOutcome fetchAt i (Anchor.href a)))))
      /\ countIssues (hasType "Empty Headings") issues = 0
      /\ countIssues (hasType "Empty Links") issues = 0
      /\ countIssues (hasType "Broken Links") issues = 0
  end.
Proof.
  cbv zeta.
  pose proof (scrapeWebsite_error_truthy newURL apiKey scrapeUrl url) as Htr.
  pose proof (scrapeWebsite_cases newURL apiKey scrapeUrl url) as Hcases.
  remember (FirecrawlScrape.scrapeWebsite newURL apiKey scrapeUrl url)
    as scraped eqn:Escr.
  unfold Route.respond. rewrite Htr.
  destruct (FirecrawlScrape.Scraped.error scraped) as [e|] eqn:Eerr.
  { split; reflexivity. }
  unfold Firecrawl.checkBrokenLinksAt. rewrite probeBatchesAt_outcomes.
  cbv zeta. simpl skipn. simpl app.
  destruct Hcases as [[message Hs] | [data Hs]].
  { rewrite Hs in Eerr. discriminate. }
  destruct (fromPayload_shape newURL url data) as [Hu [_ Hc]].
  rewrite <- Hs in Hu, Hc. destruct (Hc Eerr) as [html [Hh Hl]].
  rewrite enhanceLinks_lastFlag.
  repeat split; try assumption.
  - intros i a Hi Hlast.
    rewrite nth_error_map, Hi. simpl.
    rewrite (lastFlag_own_request fetchAt _ 0 i (Anchor.href a)).
    + reflexivity.
    + rewrite nth_error_map, Hi. reflexivity.
    + exact Hlast.
  - unfold Firecrawl.analyzeWebsiteIssues. count_rules. simpl headings.
    rewrite Hh, extractHeadings_never_blank. reflexivity.
  - unfold Firecrawl.analyzeWebsiteIssues. count_rules. simpl links.
    pose proof (extracted_link_texts_not_blank _ _ _ _ Hl) as Hnb.
    rewrite (enhanced_links_not_blank _ _ Hnb). reflexivity.
  - apply firecrawl_never_reports_broken_links.
Qed.
End RouteFacts.

(* ===================================================================== *)
(** ** The visible text of a match *)
(* ===================================================================== *)

Lemma eqbCI_closing (c : ascii) : JS.eqbCI ">" c = Ascii.eqb c ">".
Proof. destruct c as [[] [] [] [] [] [] [] []]; reflexivity. Qed.

Lemma eqbCI_opening (c : ascii) : JS.eqbCI "<" c = Ascii.eqb c "<".
Proof. destruct c as [[] [] [] [] [] [] [] []]; reflexivity. Qed.

Lemma starGreedy_to_closing (cs : JS.captures) (s : string) :
  JS.starGreedy Firecrawl.notGt
    (fun s' => JS.run (JS.Lit ">") (fun rest cs' => Some (cs', rest)) s' cs) s
  = match afterClosing s with
    | Some rest => Some (cs, rest)
    | None => None
    end.
Proof.
  induction s as [|c s IH]; [reflexivity|].
  cbn [JS.starGreedy afterClosing]. rewrite IH. unfold Firecrawl.notGt.
  cbn [JS.run]. rewrite eqbCI_closing.
  destruct (Ascii.eqb c ">"); cbn [negb]; [reflexivity|].
  destruct (afterClosing s); reflexivity.
Qed.

Lemma matchAt_tagRegex (c : ascii) (s : string) :
  JS.matchAt Firecrawl.tagRegex (String c s)
  = if Ascii.eqb c "<"
    then match afterClosing s with
         | Some rest => Some (JS.noCaptures, rest)
         | None => None
         end
    else None.
Proof.
  unfold JS.matchAt, Firecrawl.tagRegex. cbn [JS.lits JS.run].
  rewrite eqbCI_opening. destruct (Ascii.eqb c "<"); [|reflexivity].
  apply starGreedy_to_closing.
Qed.

Lemma removeAll_skip (r : JS.regex) (n : nat) (s : string) :
  JS.removeAll r n s = JS.removeAll r 0 (JS.substringFrom n s).
Proof.
  revert s. induction n as [|n IH]; intros s; [reflexivity|].
  destruct s as [|c s]; [reflexivity|]. simpl. apply IH.
Qed.

Lemma afterClosing_suffix (s rest : string) :
  afterClosing s = Some rest ->
  JS.substringFrom (String.length s - String.length rest) s = rest
  /\ String.length rest < String.length s.
Proof.
  revert rest. induction s as [|c s IH]; intros rest H; [discriminate|].
  cbn [afterClosing] in H. destruct (Ascii.eqb c ">").
  - injection H as <-. cbn [String.length].
    replace (S (String.length s) - String.length s) with 1 by lia.
    split; [reflexivity | lia].
  - destruct (IH rest H) as [Hsub Hlen]. cbn [String.length].
    replace (S (String.length s) - String.length rest)
      with (S (String.length s - String.length rest)) by lia.
    split; [exact Hsub | lia].
Qed.

Lemma afterClosing_none (s : string) :
  afterClosing s = None -> hasClosing s = false.
Proof.
  induction s as [|c s IH]; [reflexivity|]. simpl.
  destruct (Ascii.eqb c ">"); [discriminate | exact IH].
Qed.

Lemma removeAll_no_closing (r : JS.regex) (s : string) :
  hasClosing s = false -> forall n, hasClosing (JS.removeAll r n s) = false.
Proof.
  induction s as [|c s IH]; intros H n; [reflexivity|].
  simpl in H. apply Bool.orb_false_iff in H. destruct H as [Hc Hs].
  simpl. destruct n as [|n]; [|apply IH; exact Hs].
  destruct (JS.matchAt r (String c s)) as [[cs rest]|].
  - apply IH; exact Hs.
  - simpl. rewrite Hc. apply IH; exact Hs.
Qed.

Lemma removeAll_tag_free (n : nat) :
  forall s, String.length s <= n ->
            hasTag (JS.removeAll Firecrawl.tagRegex 0 s) = false.
Proof.
  induction n as [|n IH]; intros s Hlen.
  - destruct s; [reflexivity | simpl in Hlen; lia].
  - destruct s as [|c s]; [reflexivity|].
    cbn [JS.removeAll]. rewrite matchAt_tagRegex.
    cbn [String.length] in Hlen.
    destruct (Ascii.eqb c "<") eqn:Ec.
    + destruct (afterClosing s) as [rest|] eqn:Ea.
      * destruct (afterClosing_suffix s rest Ea) as [Hsub Hlt].
        cbn [String.length].
        replace (S (String.length s) - String.length rest - 1)
          with (String.length s - String.length rest) by lia.
        rewrite removeAll_skip, Hsub. apply IH. lia.
      * cbn [hasTag]. rewrite Ec.
        rewrite removeAll_no_closing by (apply afterClosing_none; exact Ea).
        simpl. apply IH. lia.
    + cbn [hasTag]. rewrite Ec. simpl. apply IH. lia.
Qed.

Lemma hasTag_split (c : ascii) (s : string) :
  hasTag (String c s) = false ->
  (Ascii.eqb c "<" = true -> hasClosing s = false) /\ hasTag s = false.
Proof.
  simpl. intros H. apply Bool.orb_false_iff in H. destruct H as [H1 H2].
  split; [|exact H2]. intros Hc. rewrite Hc in H1. exact H1.
Qed.

Lemma trimStart_tag_free (s : string) :
  hasTag s = false -> hasTag (JS.trimStart s) = false.
Proof.
  induction s as [|c s IH]; intros H; [reflexivity|].
  simpl. destruct (JS.isSpace c); [|exact H].
  apply IH. apply hasTag_split in H. tauto.
Qed.

Lemma trimEnd_no_closing (s : string) :
  hasClosing s = false -> hasClosing (JS.trimEnd s) = false.
Proof.
  induction s as [|c s IH]; intros H; [reflexivity|].
  simpl in H. apply Bool.orb_false_iff in H. destruct H as [Hc Hs].
  rewrite trimEnd_cons. specialize (IH Hs).
  destruct (JS.trimEnd s) as [|c' t].
  - destruct (JS.isSpace c); [reflexivity|]. simpl. rewrite Hc. reflexivity.
  - change (hasClosing (String c (String c' t)))
      with (Ascii.eqb c ">" || hasClosing (String c' t)).
    rewrite Hc, IH. reflexivity.
Qed.

Lemma trimEnd_tag_free (s : string) :
  hasTag s = false -> hasTag (JS.trimEnd s) = false.
Proof.
  induction s as [|c s IH]; intros H; [reflexivity|].
  apply hasTag_split in H. destruct H as [Hc Hs].
  rewrite trimEnd_cons. specialize (IH Hs).
  destruct (JS.trimEnd s) as [|c' t] eqn:E.
  - destruct (JS.isSpace c); [reflexivity|]. simpl.
    rewrite Bool.andb_false_r. reflexivity.
  - change (hasTag (String c (String c' t)))
      with ((Ascii.eqb c "<" && hasClosing (String c' t))
            || hasTag (String c' t)).
    rewrite IH, Bool.orb_false_r.
    destruct (Ascii.eqb c "<"); [|reflexivity]. cbn [andb].
    rewrite <- E. apply trimEnd_no_closing. apply Hc. reflexivity.
Qed.

Lemma visibleText_tag_free (inner : string) :
  hasTag (Firecrawl.visibleText inner) = false.
Proof.
  unfold Firecrawl.visibleText, JS.trim.
  apply trimEnd_tag_free, trimStart_tag_free.
  apply (removeAll_tag_free (String.length inner)). lia.
Qed.

Section TagFree.
Variable newURL : string -> option Firecrawl.URL.t.

(** X11.  No text the structural extractor emits holds a tag: in the text of
    every heading and of every link no opening bracket is followed,
    anywhere later, by a closing bracket.  (A lone bracket stays.) *)
Theorem extracted_texts_hold_no_tag (html baseUrl : string) :
  Forall (fun h => hasTag (Heading.text h) = false)
         (Firecrawl.extractHeadings html)
  /\ match Firecrawl.extractLinks newURL html baseUrl with
     | JS.Normal links =>
         Forall (fun a => hasTag (Anchor.text a) = false) links
     | JS.Throw _ => True
     end.
Proof.
  split.
  - unfold Firecrawl.extractHeadings, Firecrawl.extractHeadingsFrom.
    rewrite extractHeadingsFrom_acc. simpl.
    apply Forall_forall. intros h Hin.
    apply in_map_iff in Hin. destruct Hin as [m [<- _]].
    unfold headingOf. simpl. apply visibleText_tag_free.
  - destruct (Firecrawl.extractLinks newURL html baseUrl) as [links|e] eqn:E;
      [|exact I].
    apply extractLinksFrom_acc in E. subst links. simpl.
    apply Forall_forall. intros a Hin. apply in_flat_map in Hin.
    destruct Hin as [m [_ Hin]]. apply anchorEntry_sound in Hin.
    destruct Hin as [_ [-> _]]. apply visibleText_tag_free.
Qed.
End TagFree.

(* ===================================================================== *)
(** ** [truncateString] *)
(* ===================================================================== *)

Lemma substring0_length (k : nat) :
  forall s, String.length (substring 0 k s) = Nat.min k (String.length s).
Proof.
  induction k as [|k IH]; intros [|c s]; simpl; try reflexivity.
  rewrite IH. reflexivity.
Qed.

Lemma substring0_app (k : nat) :
  forall s t, k <= String.length s ->
              substring 0 k (s ++ t)%string = substring 0 k s.
Proof.
  induction k as [|k IH]; intros [|c s] t H; simpl in *; try reflexivity.
  - destruct t; reflexivity.
  - lia.
  - rewrite IH by lia. reflexivity.
Qed.

Lemma substring0_idempotent (k : nat) :
  forall s, substring 0 k (substring 0 k s) = substring 0 k s.
Proof.
  induction k as [|k IH]; intros [|c s]; simpl; try reflexivity.
  rewrite IH. reflexivity.
Qed.

Lemma append_length (s t : string) :
  String.length (s ++ t)%string = String.length s + String.length t.
Proof. induction s as [|c s IH]; simpl; [reflexivity | rewrite IH; reflexivity]. Qed.

(** X30.  For a limit that is not negative: a string longer than the limit
    comes back as its first [length] characters and three dots, so three
    characters longer than the limit (and longer than the string itself
    when the limit is within three of its length); the first [length]
    characters are always those of the string; and truncating the result
    again changes nothing. *)
Theorem truncateString_shape (str : string) (length : Z) :
  (0 <= length)%Z ->
  ((length < Z.of_nat (String.length str))%Z ->
   Z.of_nat (String.length (Utils.truncateString str length))
   = (length + 3)%Z)
  /\ substring 0 (Z.to_nat length) (Utils.truncateString str length)
     = substring 0 (Z.to_nat length) str
  /\ Utils.truncateString (Utils.truncateString str length) length
     = Utils.truncateString str length.
Proof.
  intros Hpos.
  destruct (Z.of_nat (String.length str) <=? length)%Z eqn:E.
  - assert (Hsame : Utils.truncateString str length = str)
      by (unfold Utils.truncateString; rewrite E; reflexivity).
    apply Z.leb_le in E. rewrite !Hsame.
    split; [lia|]. split; reflexivity.
  - assert (Hneg : (length <? 0)%Z = false) by (apply Z.ltb_ge; exact Hpos).
    assert (Hcut : Utils.truncateString str length
                   = (substring 0 (Z.to_nat length) str ++ "...")%string)
      by (unfold Utils.truncateString, Utils.sliceTo;
          rewrite E, Hneg; reflexivity).
    apply Z.leb_gt in E.
    assert (Hk : Z.to_nat length <= String.length str) by lia.
    assert (Hlen : String.length (substring 0 (Z.to_nat length) str)
                   = Z.to_nat length)
      by (rewrite substring0_length; lia).
    rewrite !Hcut. split; [|split].
    + intros _. rewrite append_length, Hlen. simpl. lia.
    + rewrite substring0_app by lia. apply substring0_idempotent.
    + unfold Utils.truncateString, Utils.sliceTo.
      rewrite append_length, Hlen, Hneg.
      replace (Z.of_nat (Z.to_nat length + String.length "...") <=? length)%Z
        with false by (symmetry; apply Z.leb_gt; simpl; lia).
      rewrite substring0_app by lia.
      rewrite substring0_idempotent. reflexivity.
Qed.

Lemma truncateString_shape_witness :
  Z.of_nat (String.length (Utils.truncateString "heading" 5)) = 8%Z
  /\ Utils.truncateString (Utils.truncateString "heading" 5) 5 = "headi...".
Proof.
  destruct (truncateString_shape "heading" 5 ltac:(lia)) as [Hlen [_ Hidem]].
  split; [apply Hlen; simpl; lia | rewrite Hidem; reflexivity].
Defined.

(* ===================================================================== *)
(** ** The browser-automation prober and the cached browser *)
(* ===================================================================== *)

Lemma chunksFrom_Forall (P : list string -> Prop) (links : list string)
      (i : nat) (chunks : list (list string)) :
  (forall j, j < List.length links ->
             P (JS.slice links j (j + Puppeteer.concurrencyLimit))) ->
  Forall P chunks -> Forall P (Puppeteer.chunksFrom links i chunks).
Proof.
  intros Hslice. funelim (Puppeteer.chunksFrom links i chunks); intros Hall.
  - match goal with
    | IH : forall Q : list string -> Prop, _ |- _ =>
        apply IH; [exact Hslice|]
    end.
    apply Forall_app. split; [exact Hall|].
    constructor; [apply Hslice; assumption | constructor].
  - exact Hall.
Qed.

(** X19.  The chunks the prober walks through hold every link once, in order,
    and each holds from one to five links: no more than five navigations
    are started together, and no chunk is empty. *)
Theorem chunksFrom_partitions (links : list string) :
  List.concat (Puppeteer.chunksFrom links 0 []) = links
  /\ Forall (fun chunk => 1 <= List.length chunk <= Puppeteer.concurrencyLimit)
            (Puppeteer.chunksFrom links 0 []).
Proof.
  split.
  - rewrite chunksFrom_concat. reflexivity.
  - apply chunksFrom_Forall; [|constructor].
    intros j Hj. unfold JS.slice.
    replace (j + Puppeteer.concurrencyLimit - j)
      with Puppeteer.concurrencyLimit by lia.
    rewrite length_firstn, length_skipn.
    unfold Puppeteer.concurrencyLimit. lia.
Qed.

(** X18.  The browser-automation prober with the closing of its page.  When it
    is fulfilled it answers with one outcome per link, in the order of
    the links: the outcomes of the navigations, or every link as not
    broken.  It is rejected only by a rejected [page.close()] of its
    [catch] block.  When the page closes without error it is the prober
    above.  When the page is ready but its first close is rejected and
    the second is not, the outcomes found are dropped and every link is
    reported as not broken. *)
Theorem puppeteer_prober_total (opening : Puppeteer.Opening)
        (goto : string -> JS.Promise (option Z))
        (close1 close2 : JS.Promise unit) (links : list string) :
  match Puppeteer.checkBrokenLinksClosing opening goto close1 close2 links with
  | JS.Fulfilled results =>
      map Puppeteer.LinkStatus.url results = links
      /\ (results = map (gotoOutcome goto) links
          \/ results = Puppeteer.allNotBroken links)
  | JS.Rejected e =>
      opening <> Puppeteer.NoPage
      /\ (close1 = JS.Rejected e
          \/ (exists e1, close1 = JS.Rejected e1) /\ close2 = JS.Rejected e)
  end
  /\ Puppeteer.checkBrokenLinksClosing opening goto
       (JS.Fulfilled tt) (JS.Fulfilled tt) links
     = Puppeteer.checkBrokenLinks
         match opening with Puppeteer.PageReady => true | _ => false end
         goto links
  /\ (forall e,
         Puppeteer.checkBrokenLinksClosing Puppeteer.PageReady goto
           (JS.Rejected e) (JS.Fulfilled tt) links
         = JS.Fulfilled (Puppeteer.allNotBroken links)).
Proof.
  assert (Hurls : map Puppeteer.LinkStatus.url (Puppeteer.allNotBroken links)
                  = links).
  { unfold Puppeteer.allNotBroken. rewrite map_map. simpl. apply map_id. }
  assert (Hgoto : map Puppeteer.LinkStatus.url (map (gotoOutcome goto) links)
                  = links).
  { rewrite map_map. unfold gotoOutcome. simpl. apply map_id. }
  unfold Puppeteer.checkBrokenLinksClosing, Puppeteer.checkBrokenLinks,
    Puppeteer.catchBlock.
  rewrite processChunks_outcomes, chunksFrom_concat. simpl.
  split; [|split].
  - destruct opening.
    + split; [exact Hurls | right; reflexivity].
    + destruct close1 as [u|e].
      * split; [exact Hurls | right; reflexivity].
      * split; [discriminate | left; reflexivity].
    + destruct close1 as [u|e1].
      * split; [exact Hgoto | left; reflexivity].
      * destruct close2 as [u|e].
        -- split; [exact Hurls | right; reflexivity].
        -- split; [discriminate|]. right. split; [|reflexivity].
           exists e1. reflexivity.
  - destruct opening; reflexivity.
  - intros e. reflexivity.
Qed.

(** X20.  Once [getBrowser] has been fulfilled with a browser, it keeps that
    browser: a later call is fulfilled with the same one and launches
    nothing, whatever a launch would then do; after a [closeBrowser]
    whose close succeeds the next call launches again. *)
Theorem getBrowser_reuses_instance
        (launch launch' : JS.Promise Puppeteer.Browser)
        (browserInstance browserInstance' : option Puppeteer.Browser)
        (b : Puppeteer.Browser) :
  Puppeteer.getBrowser launch browserInstance
  = (JS.Fulfilled b, browserInstance') ->
  browserInstance' = Some b
  /\ Puppeteer.getBrowser launch' browserInstance'
     = (JS.Fulfilled b, browserInstance')
  /\ Puppeteer.getBrowser launch'
       (snd (Puppeteer.closeBrowser (JS.Fulfilled tt) browserInstance'))
     = Puppeteer.getBrowser launch' None.
Proof.
  unfold Puppeteer.getBrowser at 1. intros H.
  assert (Hsome : browserInstance' = Some b).
  { destruct browserInstance as [b0|].
    - injection H as -> <-. reflexivity.
    - destruct launch as [b0|e]; [|discriminate].
      injection H as -> <-. reflexivity. }
  subst browserInstance'. repeat split.
Qed.

Lemma getBrowser_reuses_instance_witness :
  Puppeteer.getBrowser (JS.Rejected "no chromium") (Some 7)
  = (JS.Fulfilled 7, Some 7).
Proof.
  apply (getBrowser_reuses_instance (JS.Fulfilled 7) (JS.Rejected "no chromium")
           None (Some 7) 7).
  reflexivity.
Defined.

(** A launch that fails leaves no browser behind: [getBrowser] is
    rejected only when there was no browser and the launch was rejected,
    and the cache stays empty, so the next call launches again. *)
Theorem getBrowser_failed_launch
        (launch : JS.Promise Puppeteer.Browser)
        (browserInstance browserInstance' : option Puppeteer.Browser)
        (e : string) :
  Puppeteer.getBrowser launch browserInstance
  = (JS.Rejected e, browserInstance') ->
  browserInstance = None /\ browserInstance' = None
  /\ launch = JS.Rejected e.
Proof.
  unfold Puppeteer.getBrowser. destruct browserInstance as [b0|].
  - discriminate.
  - destruct launch as [b0|e0]; [discriminate|].
    intros H. injection H as -> <-. repeat split.
Qed.

Lemma getBrowser_failed_launch_witness :
  (None : option Puppeteer.Browser) = None
  /\ (None : option Puppeteer.Browser) = None
  /\ JS.Rejected "no chromium" = (JS.Rejected "no chromium"
                                  : JS.Promise Puppeteer.Browser).
Proof.
  apply (getBrowser_failed_launch (JS.Rejected "no chromium") None None
           "no chromium").
  reflexivity.
Defined.

(** Witnesses of the two rules only the browser-automation analyzer has. *)
Lemma puppeteer_reports_broken_links_witness :
  countIssues (isBrokenLinksIssue 1)
              (Puppeteer.analyzeWebsiteIssues brokenLinkPage) = 1.
Proof.
  apply (proj2 (puppeteer_reports_broken_links brokenLinkPage
                  ltac:(cbv; constructor))).
Defined.

Lemma puppeteer_reports_no_headings_witness :
  countIssues (hasTypeSeverity "No Headings" "medium")
              (Puppeteer.analyzeWebsiteIssues emptyPage) = 1.
Proof.
  apply (proj1 (puppeteer_reports_no_headings emptyPage eq_refl)).
Defined.

(* ===================================================================== *)
(** ** [checkBrokenLinks] of the Firecrawl API client *)
(* ===================================================================== *)

Lemma mockResults_urls (draw : nat -> bool) (links : list string) :
  forall n,
    map FirecrawlApi.LinkStatus.url (FirecrawlApi.mockResults draw n links)
    = links.
Proof.
  induction links as [|url links IH]; intros n; simpl; [reflexivity|].
  destruct (JS.includesStr url "broken"); simpl; rewrite IH; reflexivity.
Qed.

Lemma mockResults_named_broken (draw : nat -> bool) (links : list string) :
  forall n,
    Forall (fun r =>
              JS.includesStr (FirecrawlApi.LinkStatus.url r) "broken" = true ->
              FirecrawlApi.LinkStatus.isBroken r = true)
           (FirecrawlApi.mockResults draw n links).
Proof.
  induction links as [|url links IH]; intros n; simpl; [constructor|].
  destruct (JS.includesStr url "broken") eqn:E; constructor;
    try apply IH; simpl.
  - reflexivity.
  - rewrite E. discriminate.
Qed.

(** X21.  The two modes of the API client's link checker.  In mock mode (no
    API key, or development) it answers without the API: one outcome per
    link, in order, and a link whose URL contains [broken] is broken.
    Otherwise a response of status 200 is answered with its results as
    they are, and every other end of the request, a rejection or another
    status, with every link as not broken; the mock branch of its
    [catch] block is never taken, the environment being the same as at
    module load. *)
Theorem api_checkBrokenLinks_modes (API_KEY NODE_ENV : string)
        (draw : nat -> bool)
        (post : list string -> JS.Promise (Z * list FirecrawlApi.LinkStatus.t))
        (links : list string) :
  (FirecrawlApi.USE_MOCK_DATA API_KEY NODE_ENV = true ->
   map FirecrawlApi.LinkStatus.url
       (FirecrawlApi.checkBrokenLinks API_KEY NODE_ENV draw post links)
   = links
   /\ Forall (fun r =>
                JS.includesStr (FirecrawlApi.LinkStatus.url r) "broken" = true ->
                FirecrawlApi.LinkStatus.isBroken r = true)
             (FirecrawlApi.checkBrokenLinks API_KEY NODE_ENV draw post links))
  /\ (FirecrawlApi.USE_MOCK_DATA API_KEY NODE_ENV = false ->
      (forall results,
          post links = JS.Fulfilled (200%Z, results) ->
          FirecrawlApi.checkBrokenLinks API_KEY NODE_ENV draw post links
          = results)
      /\ ((forall results, post links <> JS.Fulfilled (200%Z, results)) ->
          FirecrawlApi.checkBrokenLinks API_KEY NODE_ENV draw post links
          = noneBroken links)).
Proof.
  unfold FirecrawlApi.checkBrokenLinks. split; intros Hmode; rewrite Hmode.
  - split; [apply mockResults_urls | apply mockResults_named_broken].
  - assert (Hdev : String.eqb NODE_ENV "development" = false).
    { unfold FirecrawlApi.USE_MOCK_DATA in Hmode.
      apply Bool.orb_false_iff in Hmode. tauto. }
    unfold FirecrawlApi.fallback. rewrite Hdev. split.
    + intros results ->. reflexivity.
    + intros Hother. destruct (post links) as [[status results]|e];
        [|reflexivity].
      destruct (status =? 200)%Z eqn:Es; [|reflexivity].
      apply Z.eqb_eq in Es. subst status.
      exfalso. apply (Hother results). reflexivity.
Qed.
